(** * Bulk identity verification: a model of [main.go]

    The handler [handleConsultar] parses two text blocks into rows, launches
    one goroutine per row behind a semaphore of [MaxWorkers] permits, retries
    each lookup up to [MaxRetries] times and streams every finished row to
    the consumer over an unbuffered channel that is closed after the
    [sync.WaitGroup] reaches zero.

    The file has four parts: the pieces of the Go library the handler relies
    on, the parser, the body of one worker goroutine, and the interleaving
    semantics of the goroutines. *)

From Stdlib Require Import ZArith String Ascii DecimalString Lia.
From Stdlib Require Import DecimalPos DecimalZ.
From stdpp Require Import list.

Set Warnings "-register-all".
Set Default Proof Using "Type".

Local Open Scope string_scope.
Local Open Scope Z_scope.

(** * Part 1: the Go library *)

(** ** Bytes and text *)

Definition TAB : ascii := "009"%char.
Definition LF : ascii := "010"%char.
Definition CR : ascii := "013"%char.

(** [strings.Split(s, sep)] for a separator of one byte, the only use the
    program makes of it.  The result is never empty. *)
Fixpoint Split (s : string) (sep : ascii) : list string :=
  match s with
  | EmptyString => [EmptyString]
  | String c s' =>
      if Ascii.eqb c sep then EmptyString :: Split s' sep
      else match Split s' sep with
           | p :: ps => String c p :: ps
           | [] => [String c EmptyString]
           end
  end.

(** [bufio.ScanLines]: the input cut after every line feed; data left after
    the last line feed is a line of its own unless it is empty. *)
Fixpoint rawLines (s : string) : list string :=
  match s with
  | EmptyString => []
  | String c s' =>
      if Ascii.eqb c LF then EmptyString :: rawLines s'
      else match rawLines s' with
           | l :: ls => String c l :: ls
           | [] => [String c EmptyString]
           end
  end.

(** [dropCR]: one trailing carriage return is removed from a line. *)
Fixpoint dropCR (s : string) : string :=
  match s with
  | EmptyString => EmptyString
  | String c s' =>
      match s' with
      | EmptyString => if Ascii.eqb c CR then EmptyString else s
      | String _ _ => String c (dropCR s')
      end
  end.

(** [bufio.MaxScanTokenSize]: with the default buffer [Scan] fails, with
    [ErrTooLong], at the first line that does not fit.  [scanTokens] gives
    the tokens delivered before the first call that fails: what a loop
    [for scanner.Scan()] sees. *)
Definition MaxScanTokenSize : Z := 64 * 1024.

Fixpoint scanTokens (ls : list string) : list string :=
  match ls with
  | [] => []
  | l :: ls' =>
      if MaxScanTokenSize <=? Z.of_nat (String.length l) then []
      else dropCR l :: scanTokens ls'
  end.

(** A [bufio.Scanner] over a string is the list of tokens it has yet to
    deliver: [Scan] pops the head and, once the list is empty, fails for
    good. *)
Definition Scanner := list string.

Definition NewScanner (s : string) : Scanner := scanTokens (rawLines s).

Definition Scan (sc : Scanner) : option (string * Scanner) :=
  match sc with
  | [] => None
  | t :: sc' => Some (t, sc')
  end.

(** [scannerNames.Scan()] is called once for each row, also after it has
    returned false.  The call that fails with [ErrTooLong] leaves
    [lineaNombre] empty, as the token of an empty line does; the call after
    it finds the error set, tells the split function that the input has
    ended and so delivers the [MaxScanTokenSize] bytes that fill the buffer;
    the calls after that fail.  [scanTokensAgain] gives the texts that such
    a caller reads, one for each call until the scanner fails for good. *)
Fixpoint scanTokensAgain (ls : list string) : list string :=
  match ls with
  | [] => []
  | l :: ls' =>
      if MaxScanTokenSize <=? Z.of_nat (String.length l) then
        [EmptyString; dropCR (substring 0 (Z.to_nat MaxScanTokenSize) l)]
      else dropCR l :: scanTokensAgain ls'
  end.

Definition NewScannerNames (s : string) : Scanner :=
  scanTokensAgain (rawLines s).

(** ** Integers, durations and formatting *)

(** Two's complement wrap-around of a 64-bit signed integer. *)
Definition wrap64 (x : Z) : Z := (x + 2 ^ 63) mod 2 ^ 64 - 2 ^ 63.

(** [time.Duration] counts nanoseconds in an [int64]. *)
Definition Duration := Z.
Definition Millisecond : Duration := 1000000.
Definition Second : Duration := 1000000000.

(** [time.Sleep d] on a clock that records the time a goroutine has spent
    asleep; a duration that is not positive returns at once. *)
Definition Sleep (d : Duration) (asleep : Z) : Z := asleep + Z.max 0 d.

(** The verb [%d] of [fmt.Sprintf]. *)
Definition formatInt (n : Z) : string := NilZero.string_of_int (Z.to_int n).

(** ** JSON *)

(** A JSON text that the scanner of [encoding/json] accepts denotes a value;
    object members keep their order and their duplicates. *)
Inductive JSON : Type :=
| JNull
| JBool (b : bool)
| JNumber (literal : string)
| JString (s : string)
| JArray (elements : list JSON)
| JObject (members : list (string * JSON)).

(** What [io.ReadAll] hands to [json.Unmarshal]: bytes that are not a JSON
    text, or the text of a value. *)
Inductive Body : Type :=
| NotJSON (raw : string)
| Text (v : JSON).

Inductive JSONError : Type :=
| SyntaxError
| UnmarshalTypeError.

(** ** ASCII instances of the library functions

    [strings.TrimSpace] and [strings.EqualFold] consult the Unicode tables of
    the library, and [http.NewRequest] its URL parser; the program is
    modelled over any functions taking their place.  On text without a byte
    above 127 the first two take the fast paths below, which serve to
    evaluate the model on examples. *)

Definition asciiSpace (c : ascii) : bool :=
  let n := nat_of_ascii c in
  ((9 <=? n) && (n <=? 13) || (n =? 32))%nat.

Fixpoint trimLeftASCII (s : string) : string :=
  match s with
  | EmptyString => EmptyString
  | String c s' => if asciiSpace c then trimLeftASCII s' else s
  end.

Fixpoint trimRightASCII (s : string) : string :=
  match s with
  | EmptyString => EmptyString
  | String c s' =>
      match trimRightASCII s' with
      | EmptyString => if asciiSpace c then EmptyString else String c EmptyString
      | t => String c t
      end
  end.

Definition TrimSpaceASCII (s : string) : string :=
  trimRightASCII (trimLeftASCII s).

(** [http.NewRequest] rejects a URL with a control character; of the URLs
    without one, those of this program can only fail on what follows a
    [#].  The instance accepts the URLs free of both. *)
Fixpoint NewRequestPlain (url : string) : bool :=
  match url with
  | EmptyString => true
  | String c url' =>
      let n := nat_of_ascii c in
      ((32 <=? n) && negb (n =? 127) && negb (n =? 35))%nat
      && NewRequestPlain url'
  end.

Definition lowerASCII (c : ascii) : ascii :=
  let n := nat_of_ascii c in
  if ((65 <=? n) && (n <=? 90))%nat then ascii_of_nat (n + 32) else c.

Fixpoint EqualFoldASCII (s t : string) : bool :=
  match s, t with
  | EmptyString, EmptyString => true
  | String a s', String b t' =>
      Ascii.eqb (lowerASCII a) (lowerASCII b) && EqualFoldASCII s' t'
  | _, _ => false
  end.

Fixpoint lowerString (s : string) : string :=
  match s with
  | EmptyString => EmptyString
  | String c s' => String (lowerASCII c) (lowerString s')
  end.

(** * Part 2: the data of the program *)

(** The constants of the configuration block. *)
Definition ApiBaseURL : string :=
  "https://api.decolecta.com/v1/reniec/dni?numero=".
Definition MaxWorkers : nat := 3.
Definition RequestDelay : Duration := 200 * Millisecond.
Definition MaxRetries : nat := 3.

Record APIResponse : Type := mkAPIResponse {
  FirstName : string;
  FirstLastName : string;
  SecondLastName : string;
  Message : string
}.

(** The zero value of [var apiData APIResponse]. *)
Definition zeroAPIResponse : APIResponse := mkAPIResponse "" "" "" "".

Record ComparisonRow : Type := mkRow {
  ID : Z;
  DNI : string;
  NombreInput : string;
  PaternoInput : string;
  MaternoInput : string;
  NombreAPI : string;
  PaternoAPI : string;
  MaternoAPI : string;
  MatchNombre : bool;
  MatchPaterno : bool;
  MatchMaterno : bool;
  HasError : bool;
  ErrorMessage : string;
  IsPending : bool
}.

(** The struct tags of [APIResponse]. *)
Inductive APIField : Type :=
| first_name
| first_last_name
| second_last_name
| message.

Definition tag (f : APIField) : string :=
  match f with
  | first_name => "first_name"
  | first_last_name => "first_last_name"
  | second_last_name => "second_last_name"
  | message => "message"
  end.

Definition apiFields : list APIField :=
  [first_name; first_last_name; second_last_name; message].

Definition assign (f : APIField) (s : string) (d : APIResponse) : APIResponse :=
  match f with
  | first_name => mkAPIResponse s (FirstLastName d) (SecondLastName d) (Message d)
  | first_last_name => mkAPIResponse (FirstName d) s (SecondLastName d) (Message d)
  | second_last_name => mkAPIResponse (FirstName d) (FirstLastName d) s (Message d)
  | message => mkAPIResponse (FirstName d) (FirstLastName d) (SecondLastName d) s
  end.

(** The HTTP exchange of one attempt.  [client.Do] returns a response and
    no error, or an error (with which the program never reads the
    response). *)
Record Response : Type := mkResponse {
  StatusCode : Z;
  ResponseBody : Body
}.

Inductive Outcome : Type :=
| Answer (resp : Response)
| TransportError (resp : option Response).

(** The variables of one worker goroutine while it is in its retry loop,
    with two counters that the program does not keep: the calls of
    [client.Do] made so far and the time spent in [time.Sleep]. *)
Record RetryVars : Type := mkVars {
  attempt : nat;
  resp : option Response;
  err : bool;
  success : bool;
  requests : nat;
  asleep : Duration
}.

(** Where a worker goroutine stands. *)
Inductive TaskPc : Type :=
| AtAcquire
| InLoop (v : RetryVars)
| AtSend (r : ComparisonRow)
| AtRelease
| AtDone
| Exited.

Record Task : Type := mkTask {
  arg : ComparisonRow;
  pc : TaskPc
}.

(** Where the producer goroutine stands: at the head of its [range] loop
    with the rows still to launch, asleep between [wg.Add(1)] and the [go]
    statement, past [wg.Wait()], or returned. *)
Inductive Launcher : Type :=
| Ranging (rows : list ComparisonRow)
| Pausing (row : ComparisonRow) (rows : list ComparisonRow)
| AtClose
| Returned.

Record State : Type := mkState {
  launcher : Launcher;
  tasks : list Task;
  wg : Z;
  sem : nat;
  closed : bool;
  received : list ComparisonRow;
  paced : Duration;
  panicked : bool
}.

(** The moves of the scheduler and of the registry. *)
Inductive Event : Type :=
| EAdd
| ESpawn
| EWait
| EClose
| EAcquire (i : nat)
| EAttempt (i : nat) (o : Outcome)
| EFinish (i : nat)
| ESend (i : nat)
| ERelease (i : nat)
| EDone (i : nat).

(** * Part 6: the rows as the browser gets them

    [generateRowHTML] and the script that the consumer of step 5 writes for
    each row it receives.  The literals of the program are written with
    ['] where they have a double quote, and [quoted] puts it back. *)

Definition DQ : ascii := "034"%char.

Fixpoint quoted (s : string) : string :=
  match s with
  | EmptyString => EmptyString
  | String c s' => String (if Ascii.eqb c "'" then DQ else c) (quoted s')
  end.

(** The verb [%t] of [fmt.Sprintf]. *)
Definition formatBool (b : bool) : string := if b then "true" else "false".

Definition getClass (matches : bool) : string :=
  if matches then "match-ok" else "match-fail".

Definition errorBadge (r : ComparisonRow) : string :=
  if HasError r then
    quoted "<span class='block text-[10px] text-red-500 font-bold'>"
    ++ ErrorMessage r
    ++ "</span>"
  else "".

Definition copyBtn (r : ComparisonRow) : string :=
  if HasError r then ""
  else
    quoted "
        <button onclick='copyRow("
    ++ formatInt (ID r)
    ++ quoted ")' class='ml-2 text-slate-400 hover:text-blue-600 transition-colors p-1 rounded-full hover:bg-blue-50' title='Copiar datos RENIEC'>
            <svg xmlns='http://www.w3.org/2000/svg' class='h-4 w-4' fill='none' viewBox='0 0 24 24' stroke='currentColor'>
                <path stroke-linecap='round' stroke-linejoin='round' stroke-width='2' d='M8 16H6a2 2 0 01-2-2V6a2 2 0 012-2h8a2 2 0 012 2v2m-6 12h8a2 2 0 002-2v-8a2 2 0 00-2-2h-8a2 2 0 00-2 2v8a2 2 0 002 2z' />
            </svg>
        </button>
    ".

Definition generateRowHTML (r : ComparisonRow) : string :=
  quoted "
        <td class='px-4 py-4 whitespace-nowrap text-sm font-mono text-slate-900 border-r border-slate-100'>
            "
  ++ DNI r
  ++ " "
  ++ errorBadge r
  ++ quoted "
        </td>
        
        <!-- Input Data -->
        <td class='px-4 py-3 whitespace-nowrap text-sm text-center border-l "
  ++ getClass (MatchNombre r)
  ++ quoted "'>"
  ++ NombreInput r
  ++ quoted "</td>
        <td class='px-4 py-3 whitespace-nowrap text-sm text-center "
  ++ getClass (MatchPaterno r)
  ++ quoted "'>"
  ++ PaternoInput r
  ++ quoted "</td>
        <td class='px-4 py-3 whitespace-nowrap text-sm text-center border-r border-slate-200 "
  ++ getClass (MatchMaterno r)
  ++ quoted "'>"
  ++ MaternoInput r
  ++ quoted "</td>

        <!-- API Data (Con IDs para copiar) -->
        <td class='px-4 py-3 whitespace-nowrap text-sm text-slate-600 text-center border-l border-slate-100 font-medium'>
            <span id='nom-"
  ++ formatInt (ID r)
  ++ quoted "'>"
  ++ NombreAPI r
  ++ quoted "</span>
        </td>
        <td class='px-4 py-3 whitespace-nowrap text-sm text-slate-600 text-center font-medium'>
            <span id='pat-"
  ++ formatInt (ID r)
  ++ quoted "'>"
  ++ PaternoAPI r
  ++ quoted "</span>
        </td>
        <td class='px-4 py-3 whitespace-nowrap text-sm text-slate-600 text-center border-r border-slate-100 font-medium flex items-center justify-center gap-2'>
            <span id='mat-"
  ++ formatInt (ID r)
  ++ quoted "'>"
  ++ MaternoAPI r
  ++ "</span>
            "
  ++ copyBtn r
  ++ "
        </td>
    ".

(** What the consumer writes for the row [res]:
    [fmt.Fprintf(w, "<script>updateRow(%d, `%s`, %t);</script>\n", ...)]. *)
Definition updateRow (res : ComparisonRow) : string :=
  "<script>updateRow(" ++ formatInt (ID res) ++ ", `"
  ++ generateRowHTML res ++ "`, " ++ formatBool (HasError res)
  ++ ");</script>" ++ String LF "".

(** What the consumer has written once it has received the rows [l]. *)
Fixpoint written (l : list ComparisonRow) : string :=
  match l with
  | [] => ""
  | res :: l' => updateRow res ++ written l'
  end.

(** * Part 7: the requests

    A request with its form and with whether its [http.ResponseWriter] is
    an [http.Flusher]; the token file, which [os.ReadFile] fails to read
    when it is not there ([None]), and which [os.WriteFile] leaves as it is
    when it cannot be opened for writing; what a handler answers. *)
Record Request : Type := mkRequest {
  Method : string;
  FormValue : string -> string;
  Flusher : bool
}.

Record Disk : Type := mkDisk {
  tokenFile : option string;
  writable : bool
}.

Inductive Reply : Type :=
| Wrote (template : string)
| WroteBroken (template : string)
| HTTPError (error : string) (code : Z)
| Redirect (url : string) (code : Z)
| Stream (rows : list ComparisonRow).

Definition StatusSeeOther : Z := 303.
Definition StatusMethodNotAllowed : Z := 405.
Definition StatusInternalServerError : Z := 500.

Definition WriteFile (data : string) (d : Disk) : Disk :=
  if writable d then mkDisk (Some data) (writable d) else d.

(** * Test vectors

    The batch of the specification's example, a batch with a blank
    identifier line, and a few registries. *)

Definition lines (l1 l2 : string) : string := l1 ++ String LF l2.

Definition tabbed (a b c : string) : string :=
  a ++ String TAB (b ++ String TAB c).

Definition rawDnisExample : string := lines "12345678" "87654321".

Definition rawNombresExample : string :=
  lines (tabbed "Juan" "Perez" "Lopez") (tabbed "Maria" "Garcia" "").



Definition rowMaria : ComparisonRow :=
  mkRow 1 "87654321" "Maria" "Garcia" "" "" "" "" false false false
        false "" true.

Definition person (a b c : string) : Body :=
  Text (JObject [("first_name", JString a);
                 ("first_last_name", JString b);
                 ("second_last_name", JString c)]).

Definition juan : Response := mkResponse 200 (person "Juan" "Perez" "Lopez").
Definition maria : Response := mkResponse 200 (person "Maria" "Garcia" "Torres").
Definition tooMany : Response := mkResponse 429 (NotJSON "").
Definition notFound : Response :=
  mkResponse 404 (Text (JObject [("message", JString "not found")])).
Definition emptyArray : Response := mkResponse 200 (Text (JArray [])).
Definition noNames : Response :=
  mkResponse 200 (Text (JObject [("message", JString "ok")])).

Definition alwaysRateLimited (k : nat) : Outcome := Answer tooMany.
Definition alwaysDown (k : nat) : Outcome := TransportError None.

(** One rate-limited attempt, then the answer [rp]. *)
Definition secondTime (rp : Response) (k : nat) : Outcome :=
  match k with
  | O => Answer tooMany
  | S _ => Answer rp
  end.

(** A run of the example batch in which the second row overtakes the
    first, which is rate limited once. *)
Definition scheduleExample : list Event :=
  [EAdd; ESpawn; EAdd; EAcquire 0; ESpawn; EAcquire 1;
   EAttempt 0 (Answer tooMany); EAttempt 1 (Answer maria);
   EFinish 1; ESend 1; EAttempt 0 (Answer juan); ERelease 1;
   EFinish 0; EDone 1; ESend 0; ERelease 0; EDone 0; EWait; EClose].

(** A run with one row, which the registry does not know. *)
Definition scheduleFailing : list Event :=
  [EAdd; ESpawn; EAcquire 0; EAttempt 0 (Answer notFound); EFinish 0; ESend 0].

(** An identifier line with a tab inside, and the run of its batch up to
    the first request. *)
Definition rawDnisTab : string := "12" ++ String TAB "34".

Definition scheduleTab : list Event :=
  [EAdd; ESpawn; EAcquire 0; EAttempt 0 (Answer juan)].

(** A row whose identifier has a tab inside. *)
Definition rowTab : ComparisonRow :=
  mkRow 0 rawDnisTab "" "" "" "" "" "" false false false false "" true.

(** The row of the run [scheduleFailing] as the consumer receives it. *)
Definition rowNotFound : ComparisonRow :=
  mkRow 0 "12345678" "Juan" "" "" "" "" "" false false false
        true "HTTP 404" false.

(** A time-out, a rate-limited answer, a time-out. *)
Definition mixedRegistry (k : nat) : Outcome :=
  match k with
  | 1%nat => Answer tooMany
  | _ => TransportError None
  end.

(** Requests, disks and templates. *)
Definition postToken (t : string) : Request :=
  mkRequest "POST" (fun k => if String.eqb k "token" then t else "") false.

Definition getIndex : Request := mkRequest "GET" (fun _ => "") false.

Definition postBatch : Request :=
  mkRequest "POST"
    (fun k => if String.eqb k "dnis" then rawDnisExample
              else if String.eqb k "nombres" then rawNombresExample
              else "")
    true.

Definition emptyDisk : Disk := mkDisk None true.

Definition diskWith (token : string) : Disk := mkDisk (Some token) true.

Definition templatesRender (name : string) (rows : list ComparisonRow) : bool :=
  true.

(** The same run stopped while both lookups are in flight. *)
Definition scheduleMidway : list Event :=
  [EAdd; ESpawn; EAdd; EAcquire 0; ESpawn; EAcquire 1;
   EAttempt 0 (Answer tooMany)].

(** The sum of [2 + k] for [k] from [0] to [n - 1]. *)
Fixpoint backoffSum (n : nat) : Z :=
  match n with
  | O => 0
  | S n' => backoffSum n' + (2 + Z.of_nat n')
  end.

Section Program.

(** [strings.TrimSpace] and [strings.EqualFold]. *)
Variable TrimSpace : string -> string.
Variable EqualFold : string -> string -> bool.

(** Whether [http.NewRequest("GET", url, nil)] returns a request: it
    returns nil and an error for a URL that [url.Parse] rejects, one with a
    control character for instance. *)
Variable NewRequest : string -> bool.

(** ** [json.Unmarshal] into an [APIResponse]

    A key selects the field whose tag it equals or, failing that, the
    first field whose tag it matches under case folding; other keys are
    skipped.  A string is stored, [null] leaves the field as it is, any
    other value is a type error: the first one is kept and decoding goes
    on.  At top level [null] does nothing and whatever is neither [null]
    nor an object is a type error.  A text that is not JSON is rejected
    before anything is stored. *)
Definition fieldFor (key : string) : option APIField :=
  match find (fun f => String.eqb (tag f) key) apiFields with
  | Some f => Some f
  | None => find (fun f => EqualFold (tag f) key) apiFields
  end.

Definition decodeMember (acc : APIResponse * option JSONError)
    (kv : string * JSON) : APIResponse * option JSONError :=
  match fieldFor (fst kv) with
  | None => acc
  | Some f =>
      match snd kv with
      | JString s => (assign f s (fst acc), snd acc)
      | JNull => acc
      | _ => (fst acc,
              match snd acc with
              | None => Some UnmarshalTypeError
              | Some e => Some e
              end)
      end
  end.

Definition Unmarshal (data : Body) (v : APIResponse)
    : APIResponse * option JSONError :=
  match data with
  | NotJSON _ => (v, Some SyntaxError)
  | Text JNull => (v, None)
  | Text (JObject members) => fold_left decodeMember members (v, None)
  | Text _ => (v, Some UnmarshalTypeError)
  end.

(** * Part 3: the parser (step 2 of [handleConsultar])

    One iteration of [for scannerDNI.Scan()] per identifier line.  The
    counter cannot overflow: every row consumes at least one byte of
    [rawDnis], whose length is an [int]. *)
Definition newRow (idCounter : Z) (dni lineaNombre : string) : ComparisonRow :=
  let parts := Split lineaNombre TAB in
  let nombreIn := from_option TrimSpace "" (parts !! 0%nat) in
  let patIn := from_option TrimSpace "" (parts !! 1%nat) in
  let matIn := from_option TrimSpace "" (parts !! 2%nat) in
  mkRow idCounter dni nombreIn patIn matIn "" "" "" false false false
        false "" true.

Fixpoint parseRows (scannerDNI scannerNames : Scanner) (idCounter : Z)
    : list ComparisonRow :=
  match scannerDNI with
  | [] => []
  | text :: scannerDNI' =>
      let dni := TrimSpace text in
      if String.eqb dni "" then parseRows scannerDNI' scannerNames idCounter
      else
        let '(lineaNombre, scannerNames') :=
          match Scan scannerNames with
          | Some (t, sc) => (t, sc)
          | None => ("", scannerNames)
          end in
        newRow idCounter dni lineaNombre
        :: parseRows scannerDNI' scannerNames' (idCounter + 1)
  end.

Definition initialRows (rawDnis rawNombres : string) : list ComparisonRow :=
  parseRows (NewScanner rawDnis) (NewScannerNames rawNombres) 0.

(** The bodies that [json.Unmarshal] stores without an error. *)
Definition memberDecodes (kv : string * JSON) : bool :=
  match fieldFor (fst kv) with
  | None => true
  | Some _ =>
      match snd kv with
      | JString _ | JNull => true
      | _ => false
      end
  end.

Definition decodes (data : Body) : bool :=
  match data with
  | NotJSON _ => false
  | Text JNull => true
  | Text (JObject members) => forallb memberDecodes members
  | Text _ => false
  end.

Definition get (f : APIField) (d : APIResponse) : string :=
  match f with
  | first_name => FirstName d
  | first_last_name => FirstLastName d
  | second_last_name => SecondLastName d
  | message => Message d
  end.

(** A row as the parser leaves it. *)
Definition fresh (r : ComparisonRow) : Prop :=
  IsPending r = true /\ HasError r = false /\ ErrorMessage r = "" /\
  NombreAPI r = "" /\ PaternoAPI r = "" /\ MaternoAPI r = "" /\
  MatchNombre r = false /\ MatchPaterno r = false /\ MatchMaterno r = false.


(** The field [f] has no member in the body. *)
Definition absent (f : APIField) (data : Body) : Prop :=
  match data with
  | Text JNull => True
  | Text (JObject members) =>
      forall kv, In kv members -> fieldFor (fst kv) <> Some f
  | _ => False
  end.

(** * Part 4: one worker goroutine *)

Variable maxRetries : nat.

Definition enterLoop : RetryVars := mkVars 0 None false false 0 0.

(** The loop goes on while it has not been left by [break] and
    [attempt < MaxRetries]. *)
Definition looping (v : RetryVars) : bool :=
  negb (success v) && (attempt v <? maxRetries)%nat.

(** One pass through the body of the retry loop, with the outcome of its
    call of [client.Do]. *)
Definition loopBody (o : Outcome) (v : RetryVars) : RetryVars :=
  match o with
  | Answer r =>
      if StatusCode r =? 429 then
        mkVars (S (attempt v)) (Some r) false (success v) (S (requests v))
          (Sleep (wrap64 (wrap64 (2 + Z.of_nat (attempt v)) * Second))
                 (asleep v))
      else
        mkVars (attempt v) (Some r) false true (S (requests v)) (asleep v)
  | TransportError r =>
      mkVars (S (attempt v)) r true (success v) (S (requests v))
        (Sleep (1 * Second) (asleep v))
  end.

Definition notPending (r : ComparisonRow) : ComparisonRow :=
  mkRow (ID r) (DNI r) (NombreInput r) (PaternoInput r) (MaternoInput r)
        (NombreAPI r) (PaternoAPI r) (MaternoAPI r)
        (MatchNombre r) (MatchPaterno r) (MatchMaterno r)
        (HasError r) (ErrorMessage r) false.

Definition withError (msg : string) (r : ComparisonRow) : ComparisonRow :=
  mkRow (ID r) (DNI r) (NombreInput r) (PaternoInput r) (MaternoInput r)
        (NombreAPI r) (PaternoAPI r) (MaternoAPI r)
        (MatchNombre r) (MatchPaterno r) (MatchMaterno r)
        true msg (IsPending r).

Definition withAPI (apiData : APIResponse) (r : ComparisonRow) : ComparisonRow :=
  mkRow (ID r) (DNI r) (NombreInput r) (PaternoInput r) (MaternoInput r)
        (FirstName apiData) (FirstLastName apiData) (SecondLastName apiData)
        (EqualFold (NombreInput r) (FirstName apiData))
        (EqualFold (PaternoInput r) (FirstLastName apiData))
        (EqualFold (MaternoInput r) (SecondLastName apiData))
        (HasError r) (ErrorMessage r) (IsPending r).

(** The code after the loop, up to the send.  [None] is the nil
    dereference of [resp.Body]. *)
Definition finish (v : RetryVars) (r : ComparisonRow) : option ComparisonRow :=
  let r := notPending r in
  if negb (success v) || err v then
    Some (withError
            (match resp v with
             | Some rp =>
                 if negb (err v) then "HTTP " ++ formatInt (StatusCode rp)
                 else "Error Red"
             | None => "Error Red"
             end) r)
  else
    match resp v with
    | None => None
    | Some rp =>
        if StatusCode rp =? 200 then
          match Unmarshal (ResponseBody rp) zeroAPIResponse with
          | (apiData, None) => Some (withAPI apiData r)
          | (_, Some _) => Some (withError "JSON Error" r)
          end
        else Some (withError ("HTTP " ++ formatInt (StatusCode rp)) r)
    end.

(** The retry loop against a registry that answers the attempt of index [k]
    with [net k]. *)
Fixpoint retryLoop (fuel : nat) (net : nat -> Outcome) (v : RetryVars)
    : RetryVars :=
  match fuel with
  | O => v
  | S fuel' =>
      if looping v then retryLoop fuel' net (loopBody (net (attempt v)) v)
      else v
  end.

(** What holds of the variables at every point of the loop. *)
Definition loopInv (v : RetryVars) : Prop :=
  if success v
  then (exists rp, resp v = Some rp) /\ err v = false /\
       requests v = S (attempt v) /\ (attempt v < maxRetries)%nat
  else requests v = attempt v /\ (attempt v <= maxRetries)%nat.

(** The outcomes after which the loop goes round again. *)
Definition retryable (o : Outcome) : bool :=
  match o with
  | Answer r => StatusCode r =? 429
  | TransportError _ => true
  end.

Definition runLoop (net : nat -> Outcome) : RetryVars :=
  retryLoop maxRetries net enterLoop.

(** The request of every pass is built from the same URL.  The program
    drops the error of [http.NewRequest]: [req.Header.Set] on the nil
    request of a rejected URL is a nil dereference. *)
Definition buildRequest (r : ComparisonRow) : bool :=
  NewRequest (ApiBaseURL ++ DNI r).

(** The goroutine from the loop to the send, against the registry [net].
    [None] is a panic: in the first pass, when there is one and the request
    cannot be built, or after the loop. *)
Definition worker (net : nat -> Outcome) (r : ComparisonRow)
    : option ComparisonRow :=
  if looping enterLoop && negb (buildRequest r) then None
  else finish (runLoop net) r.

(** * Part 5: the goroutines of step 4 and the consumer of step 5

    [sem] is a channel of capacity [MaxWorkers] used as a semaphore: a send
    takes a permit and blocks when [len(sem)] has reached the capacity, a
    receive gives one back.  [resultsChan] is unbuffered: a send and the
    receive of the consumer's [range] happen together.  A move that the
    program cannot make in a state gives [None].  The state at the start of
    step 4 is reached by a POST request whose writer can flush and whose
    table of pending rows has been rendered. *)

Variable maxWorkers : nat.

Definition setLauncher (l : Launcher) (s : State) : State :=
  mkState l (tasks s) (wg s) (sem s) (closed s) (received s) (paced s)
          (panicked s).

Definition setTask (i : nat) (t : Task) (s : State) : State :=
  mkState (launcher s) (<[i := t]> (tasks s)) (wg s) (sem s) (closed s)
          (received s) (paced s) (panicked s).

Definition setWg (n : Z) (s : State) : State :=
  mkState (launcher s) (tasks s) n (sem s) (closed s) (received s) (paced s)
          (panicked s).

Definition panic (s : State) : State :=
  mkState (launcher s) (tasks s) (wg s) (sem s) (closed s) (received s)
          (paced s) true.

Definition setSem (n : nat) (s : State) : State :=
  mkState (launcher s) (tasks s) (wg s) n (closed s) (received s) (paced s)
          (panicked s).

Definition move (e : Event) (s : State) : option State :=
  match e with
  | EAdd =>
      (* wg.Add(1) *)
      match launcher s with
      | Ranging (row :: rows) =>
          Some (setWg (wg s + 1) (setLauncher (Pausing row rows) s))
      | _ => None
      end
  | ESpawn =>
      (* time.Sleep(RequestDelay); go func(r ComparisonRow) {...}(row) *)
      match launcher s with
      | Pausing row rows =>
          Some (mkState (Ranging rows) (tasks s ++ [mkTask row AtAcquire])%list
                        (wg s) (sem s) (closed s) (received s)
                        (Sleep RequestDelay (paced s)) (panicked s))
      | _ => None
      end
  | EWait =>
      (* wg.Wait() returns once the counter is zero *)
      match launcher s with
      | Ranging [] => if wg s =? 0 then Some (setLauncher AtClose s) else None
      | _ => None
      end
  | EClose =>
      (* close(resultsChan) *)
      match launcher s with
      | AtClose =>
          Some (mkState Returned (tasks s) (wg s) (sem s) true (received s)
                        (paced s) (panicked s))
      | _ => None
      end
  | EAcquire i =>
      (* sem <- struct{}{} *)
      match tasks s !! i with
      | Some (mkTask a AtAcquire) =>
          if (sem s <? maxWorkers)%nat then
            Some (setSem (S (sem s)) (setTask i (mkTask a (InLoop enterLoop)) s))
          else None
      | _ => None
      end
  | EAttempt i o =>
      (* one pass through the body of the retry loop *)
      match tasks s !! i with
      | Some (mkTask a (InLoop v)) =>
          if looping v then
            if buildRequest a then
              Some (setTask i (mkTask a (InLoop (loopBody o v))) s)
            else Some (panic s)
          else None
      | _ => None
      end
  | EFinish i =>
      (* the code between the loop and the send *)
      match tasks s !! i with
      | Some (mkTask a (InLoop v)) =>
          if looping v then None
          else match finish v a with
               | Some r => Some (setTask i (mkTask a (AtSend r)) s)
               | None => None
               end
      | _ => None
      end
  | ESend i =>
      (* resultsChan <- r, taken by the consumer's range *)
      match tasks s !! i with
      | Some (mkTask a (AtSend r)) =>
          if closed s then None
          else Some (mkState (launcher s) (<[i := mkTask a AtRelease]> (tasks s))
                             (wg s) (sem s) (closed s) (received s ++ [r])%list
                             (paced s) (panicked s))
      | _ => None
      end
  | ERelease i =>
      (* deferred: <-sem *)
      match tasks s !! i with
      | Some (mkTask a AtRelease) =>
          match sem s with
          | S n => Some (setSem n (setTask i (mkTask a AtDone) s))
          | O => None
          end
      | _ => None
      end
  | EDone i =>
      (* deferred: wg.Done() *)
      match tasks s !! i with
      | Some (mkTask a AtDone) =>
          if wg s - 1 <? 0 then None
          else Some (setWg (wg s - 1) (setTask i (mkTask a Exited) s))
      | _ => None
      end
  end.

(** A panic in a goroutine ends the program: the deferred calls of the
    goroutine and the exit of the process are taken as one move, after
    which nothing happens. *)
Definition step (e : Event) (s : State) : option State :=
  if panicked s then None else move e s.

Fixpoint exec (evs : list Event) (s : State) : option State :=
  match evs with
  | [] => Some s
  | e :: evs' =>
      match step e s with
      | Some s' => exec evs' s'
      | None => None
      end
  end.

(** The state a schedule leads to; a schedule that cannot be run to its
    end leaves the state where it was. *)
Definition outcomeOf (evs : list Event) (s : State) : State :=
  default s (exec evs s).

(** The state in which the producer goroutine starts. *)
Definition start (rows : list ComparisonRow) : State :=
  mkState (Ranging rows) [] 0 0 false [] 0 false.

Definition handleConsultar (rawDnis rawNombres : string) : State :=
  start (initialRows rawDnis rawNombres).

Inductive reachable (s0 : State) : State -> Prop :=
| reachable_start : reachable s0 s0
| reachable_step s e s' :
    reachable s0 s -> step e s = Some s' -> reachable s0 s'.

(** ** What is observed in a state *)

Definition holdsPermit (t : Task) : bool :=
  match pc t with
  | InLoop _ | AtSend _ | AtRelease => true
  | _ => false
  end.

Definition inLookup (t : Task) : bool :=
  match pc t with
  | InLoop _ => true
  | _ => false
  end.

Definition running (t : Task) : bool :=
  match pc t with
  | Exited => false
  | _ => true
  end.

Definition hasSent (t : Task) : bool :=
  match pc t with
  | AtRelease | AtDone | Exited => true
  | _ => false
  end.

(** The goroutines whose row is complete and not yet received. *)
Definition atSend (t : Task) : bool :=
  match pc t with
  | AtSend _ => true
  | _ => false
  end.

Fixpoint count {A : Type} (p : A -> bool) (l : list A) : nat :=
  match l with
  | [] => O
  | x :: l' => if p x then S (count p l') else count p l'
  end.

(** The lookups in flight: the workers between taking and returning a
    permit that are in their retry loop. *)
Definition inFlight (s : State) : nat := count inLookup (tasks s).

(** The rows the producer has not launched yet. *)
Definition unlaunched (s : State) : list ComparisonRow :=
  match launcher s with
  | Ranging rows => rows
  | Pausing row rows => row :: rows
  | _ => []
  end.

(** ** Status of a row *)

Inductive Status : Type := Pending | Resolved | Failed.

Definition status (r : ComparisonRow) : Status :=
  if IsPending r then Pending
  else if HasError r then Failed
  else Resolved.

Definition unsetAPI (r : ComparisonRow) : Prop :=
  NombreAPI r = "" /\ PaternoAPI r = "" /\ MaternoAPI r = "" /\
  MatchNombre r = false /\ MatchPaterno r = false /\ MatchMaterno r = false.

Definition statusShape (r : ComparisonRow) : Prop :=
  (ErrorMessage r <> "" <-> status r = Failed) /\
  (status r <> Resolved -> unsetAPI r).

Definition flagsCompared (r : ComparisonRow) : Prop :=
  MatchNombre r = EqualFold (NombreInput r) (NombreAPI r) /\
  MatchPaterno r = EqualFold (PaternoInput r) (PaternoAPI r) /\
  MatchMaterno r = EqualFold (MaternoInput r) (MaternoAPI r).

(** A row fit to be sent. *)
Definition terminal (r : ComparisonRow) : Prop :=
  statusShape r /\ status r <> Pending /\
  (status r = Resolved -> flagsCompared r).

(** ** The invariant of the goroutines *)

(** The variables of a goroutine in its loop are those of the loop of
    Part 4 against some registry, and the goroutine has built a request if
    it has made one. *)
Definition fromLoop (a : ComparisonRow) (v : RetryVars) : Prop :=
  loopInv v /\
  (exists net, v = retryLoop (requests v) net enterLoop) /\
  (requests v <> O -> buildRequest a = true).

(** The row is what the goroutine of Part 4 makes of a parsed row against
    some registry. *)
Definition produced (rows : list ComparisonRow) (r : ComparisonRow) : Prop :=
  exists net a, In a rows /\ worker net a = Some r.

Definition taskOk (t : Task) : Prop :=
  match pc t with
  | InLoop v => fromLoop (arg t) v
  | AtSend r =>
      ID r = ID (arg t) /\ terminal r /\ exists net, worker net (arg t) = Some r
  | _ => True
  end.

Definition pausing (l : Launcher) : Z :=
  match l with
  | Pausing _ _ => 1
  | _ => 0
  end.

Record Inv (rows : list ComparisonRow) (s : State) : Prop := mkInv {
  inv_rows : (map arg (tasks s) ++ unlaunched s)%list = rows;
  inv_sem : sem s = count holdsPermit (tasks s);
  inv_cap : (sem s <= maxWorkers)%nat;
  inv_wg : wg s = Z.of_nat (count running (tasks s)) + pausing (launcher s);
  inv_recv :
    Permutation (map ID (received s))
                (map (fun t => ID (arg t)) (List.filter hasSent (tasks s)));
  inv_tasks : Forall taskOk (tasks s);
  inv_received :
    Forall (fun r => terminal r /\ produced rows r) (received s);
  inv_waited :
    match launcher s with
    | AtClose | Returned => wg s = 0
    | _ => True
    end;
  inv_closed : closed s = true -> launcher s = Returned;
  inv_returned : launcher s = Returned -> closed s = true
}.

(** ** A measure of what is left to do *)

Definition taskWeight (t : Task) : nat :=
  match pc t with
  | AtAcquire => maxRetries + 6
  | InLoop v => if looping v then maxRetries - attempt v + 5 else 4
  | AtSend _ => 3
  | AtRelease => 2
  | AtDone => 1
  | Exited => 0
  end.

Fixpoint tasksWeight (l : list Task) : nat :=
  match l with
  | [] => O
  | t :: l' => taskWeight t + tasksWeight l'
  end.

Definition launcherWeight (l : Launcher) : nat :=
  match l with
  | Ranging rows => length rows * (maxRetries + 8) + 2
  | Pausing _ rows => S (length rows) * (maxRetries + 8) + 1
  | AtClose => 1
  | Returned => 0
  end.

Definition weight (s : State) : nat :=
  (if panicked s then 0 else 1) + launcherWeight (launcher s) +
  tasksWeight (tasks s).

(** The goroutines past their acquire that have not exited. *)
Definition ready (t : Task) : bool :=
  match pc t with
  | InLoop _ | AtSend _ | AtRelease | AtDone => true
  | _ => false
  end.


(** * Part 8: the handlers

    [templates.ExecuteTemplate] on a template and the rows it is given
    ([nil] is no row) succeeds or fails; the templates are files. *)

Variable ExecuteTemplate : string -> list ComparisonRow -> bool.

Definition Handler : Type := Request -> Disk -> Disk * Reply.

Definition getToken (d : Disk) : string :=
  match tokenFile d with
  | None => ""
  | Some content => TrimSpace content
  end.

Definition authMiddleware (next : Handler) : Handler :=
  fun r d =>
    let token := getToken d in
    if String.eqb token "" then
      if ExecuteTemplate "formulario_token.html" []
      then (d, Wrote "formulario_token.html")
      else (d, HTTPError "Error interno de template" StatusInternalServerError)
    else next r d.

Definition handleIndex : Handler :=
  fun r d =>
    if negb (String.eqb (Method r) "GET") then
      (d, HTTPError "Método no permitido" StatusMethodNotAllowed)
    else if ExecuteTemplate "formulario_consulta.html" []
    then (d, Wrote "formulario_consulta.html")
    else (d, WroteBroken "formulario_consulta.html").

Definition handleSaveToken : Handler :=
  fun r d =>
    if negb (String.eqb (Method r) "POST") then
      (d, HTTPError "Método no permitido" StatusMethodNotAllowed)
    else
      let token := FormValue r "token" in
      if String.eqb token "" then (d, Redirect "/" StatusSeeOther)
      else (WriteFile token d, Redirect "/" StatusSeeOther).

(** [handleConsultar] up to step 4: [Stream rows] is the table of pending
    rows written and flushed and the goroutines started on [rows], that is
    the state [start rows]. *)
Definition serveConsultar : Handler :=
  fun r d =>
    if negb (String.eqb (Method r) "POST") then
      (d, HTTPError "Método no permitido" StatusMethodNotAllowed)
    else if negb (Flusher r) then
      (d, HTTPError "Streaming no soportado" StatusInternalServerError)
    else
      let rows := initialRows (FormValue r "dnis") (FormValue r "nombres") in
      if ExecuteTemplate "tabla_resultados.html" rows then (d, Stream rows)
      else (d, WroteBroken "tabla_resultados.html").

(** The three routes of [main]. *)
Definition routeIndex : Handler := authMiddleware handleIndex.
Definition routeSaveToken : Handler := handleSaveToken.
Definition routeConsultar : Handler := authMiddleware serveConsultar.

(** The backoff after the outcome [o] of the attempt of index [k]. *)
Definition backoff (o : Outcome) (k : nat) : Duration :=
  match o with
  | Answer r => if StatusCode r =? 429 then (2 + Z.of_nat k) * Second else 0
  | TransportError _ => 1 * Second
  end.

Fixpoint backoffs (net : nat -> Outcome) (n : nat) : Duration :=
  match n with
  | O => 0
  | S n' => backoffs net n' + backoff (net n') n'
  end.

(** The number of occurrences of a byte. *)
Fixpoint occurrences (c : ascii) (s : string) : nat :=
  match s with
  | EmptyString => O
  | String a s' => if Ascii.eqb a c then S (occurrences c s') else occurrences c s'
  end.

(** * Properties of the worker *)

Lemma wrap64_small (x : Z) : - 2 ^ 63 <= x < 2 ^ 63 -> wrap64 x = x.
Proof.
  intros H. unfold wrap64.
  rewrite Z.mod_small by lia. lia.
Qed.

Lemma retryLoop_idle (n : nat) (net : nat -> Outcome) (v : RetryVars) :
  looping v = false -> retryLoop n net v = v.
Proof. intros H. destruct n as [|n]; simpl; [|rewrite H]; reflexivity. Qed.

Lemma retryLoop_add (n m : nat) (net : nat -> Outcome) (v : RetryVars) :
  retryLoop (n + m) net v = retryLoop m net (retryLoop n net v).
Proof.
  revert v. induction n as [|n IH]; intros v; simpl; [reflexivity|].
  destruct (looping v) eqn:E; [apply IH|].
  symmetry. now apply retryLoop_idle.
Qed.

(** The loop is over when its fuel is: [MaxRetries] passes are enough. *)
Lemma retryLoop_stops (n : nat) (net : nat -> Outcome) (v : RetryVars) :
  (maxRetries <= attempt v + n)%nat -> looping (retryLoop n net v) = false.
Proof.
  revert v. induction n as [|n IH]; intros v Hn; simpl.
  - unfold looping. replace (attempt v <? maxRetries)%nat with false.
    + apply andb_false_r.
    + symmetry. apply Nat.ltb_ge. lia.
  - destruct (looping v) eqn:E; [|exact E].
    destruct (net (attempt v)) as [rp|rp]; simpl.
    + destruct (StatusCode rp =? 429) eqn:Ec.
      * apply IH. simpl. lia.
      * rewrite retryLoop_idle; reflexivity.
    + apply IH. simpl. lia.
Qed.

Lemma runLoop_stops (net : nat -> Outcome) : looping (runLoop net) = false.
Proof. apply retryLoop_stops. simpl. lia. Qed.

Lemma loopInv_enter : loopInv enterLoop.
Proof. unfold loopInv. simpl. lia. Qed.

Lemma loopInv_body (o : Outcome) (v : RetryVars) :
  loopInv v -> looping v = true -> loopInv (loopBody o v).
Proof.
  unfold loopInv, looping. intros Hv Hl.
  apply andb_true_iff in Hl as [Hs Hl].
  apply negb_true_iff in Hs. rewrite Hs in Hv.
  apply Nat.ltb_lt in Hl.
  destruct o as [rp|rp]; simpl.
  - destruct (StatusCode rp =? 429); simpl.
    + rewrite Hs. lia.
    + repeat split; eauto; lia.
  - rewrite Hs. lia.
Qed.

Lemma loopInv_retryLoop (n : nat) (net : nat -> Outcome) (v : RetryVars) :
  loopInv v -> loopInv (retryLoop n net v).
Proof.
  revert v. induction n as [|n IH]; intros v Hv; simpl; [exact Hv|].
  destruct (looping v) eqn:E; [|exact Hv].
  apply IH. now apply loopInv_body.
Qed.

Lemma requests_bound (v : RetryVars) :
  loopInv v -> (requests v <= maxRetries)%nat.
Proof. unfold loopInv. destruct (success v); lia. Qed.

(** As long as the registry gives retryable outcomes the loop goes round. *)
Lemma retryLoop_retrying (n : nat) (net : nat -> Outcome) (v : RetryVars) :
  success v = false ->
  (attempt v + n <= maxRetries)%nat ->
  (forall k, (attempt v <= k < attempt v + n)%nat -> retryable (net k) = true) ->
  success (retryLoop n net v) = false /\
  attempt (retryLoop n net v) = (attempt v + n)%nat /\
  requests (retryLoop n net v) = (requests v + n)%nat.
Proof.
  revert v. induction n as [|n IH]; intros v Hs Hn Hk; simpl.
  - repeat split; [exact Hs|lia|lia].
  - assert (El : looping v = true).
    { unfold looping. rewrite Hs. simpl. apply Nat.ltb_lt. lia. }
    rewrite El.
    assert (Hr : retryable (net (attempt v)) = true) by (apply Hk; lia).
    destruct (IH (loopBody (net (attempt v)) v)) as (H1 & H2 & H3).
    + destruct (net (attempt v)) as [rp|rp]; simpl in *; [rewrite Hr|]; exact Hs.
    + destruct (net (attempt v)) as [rp|rp]; simpl in *; [rewrite Hr|]; simpl; lia.
    + intros k Hk'. apply Hk.
      destruct (net (attempt v)) as [rp|rp]; simpl in *;
        [rewrite Hr in Hk'|]; simpl in Hk'; lia.
    + repeat split; [exact H1| |].
      * rewrite H2. destruct (net (attempt v)) as [rp|rp]; simpl in *;
          [rewrite Hr|]; simpl; lia.
      * rewrite H3. destruct (net (attempt v)) as [rp|rp]; simpl in *;
          [rewrite Hr|]; simpl; lia.
Qed.

(** One more pass after [n] retryable outcomes. *)
Lemma retryLoop_snoc (n : nat) (net : nat -> Outcome) :
  (n < maxRetries)%nat ->
  (forall k, (k < n)%nat -> retryable (net k) = true) ->
  retryLoop (S n) net enterLoop =
  loopBody (net n) (retryLoop n net enterLoop).
Proof.
  intros Hn Hk.
  destruct (retryLoop_retrying n net enterLoop) as (H1 & H2 & H3);
    [reflexivity|simpl; lia|intros k Hk'; apply Hk; simpl in Hk'; lia|].
  replace (S n) with (n + 1)%nat by lia.
  rewrite retryLoop_add. simpl.
  unfold looping. rewrite H1, H2. simpl.
  replace (n <? maxRetries)%nat with true by (symmetry; apply Nat.ltb_lt; lia).
  reflexivity.
Qed.

(** The loop ends with the first outcome that is not retryable. *)
Lemma runLoop_first_answer (net : nat -> Outcome) (n : nat) (rp : Response) :
  (n < maxRetries)%nat ->
  (forall k, (k < n)%nat -> retryable (net k) = true) ->
  net n = Answer rp ->
  StatusCode rp <> 429 ->
  runLoop net = loopBody (Answer rp) (retryLoop n net enterLoop) /\
  runLoop net =
    mkVars n (Some rp) false true (S n) (asleep (retryLoop n net enterLoop)).
Proof.
  intros Hn Hk Ho Hc.
  destruct (retryLoop_retrying n net enterLoop) as (H1 & H2 & H3);
    [reflexivity|simpl; lia|intros k Hk'; apply Hk; simpl in Hk'; lia|].
  assert (E : runLoop net = loopBody (Answer rp) (retryLoop n net enterLoop)).
  { unfold runLoop.
    replace maxRetries with (S n + (maxRetries - S n))%nat at 1 by lia.
    rewrite retryLoop_add, retryLoop_snoc by assumption.
    rewrite Ho. apply retryLoop_idle.
    simpl. apply Z.eqb_neq in Hc. rewrite Hc. reflexivity. }
  split; [exact E|].
  rewrite E. simpl. apply Z.eqb_neq in Hc. rewrite Hc.
  simpl in H2, H3. rewrite H2, H3. reflexivity.
Qed.

(** ** What [json.Unmarshal] accepts *)

Lemma decodeMembers_error (ms : list (string * JSON))
    (acc : APIResponse * option JSONError) :
  snd (fold_left decodeMember ms acc) = None <->
  snd acc = None /\ forallb memberDecodes ms = true.
Proof.
  revert acc. induction ms as [|kv ms IH]; intros acc; simpl.
  - split; [auto|now intros [H _]].
  - rewrite IH. unfold decodeMember, memberDecodes.
    destruct (fieldFor (fst kv)) as [f|]; simpl; [|reflexivity].
    destruct (snd kv); simpl; try reflexivity;
      destruct (snd acc); simpl;
      (split; intros [H1 H2]; discriminate).
Qed.

Lemma Unmarshal_error (data : Body) (d : APIResponse) :
  snd (Unmarshal data d) = None <-> decodes data = true.
Proof.
  destruct data as [raw|v]; simpl; [split; discriminate|].
  destruct v; simpl; try (split; discriminate); try (split; reflexivity).
  rewrite decodeMembers_error. simpl.
  split; [now intros [_ H]|auto].
Qed.

Lemma get_assign_other (f g : APIField) (s : string) (d : APIResponse) :
  f <> g -> get f (assign g s d) = get f d.
Proof. destruct f, g; simpl; congruence. Qed.

(** A field that no member of the object selects keeps its value. *)
Lemma decodeMembers_absent (f : APIField) (ms : list (string * JSON))
    (acc : APIResponse * option JSONError) :
  (forall kv, In kv ms -> fieldFor (fst kv) <> Some f) ->
  get f (fst (fold_left decodeMember ms acc)) = get f (fst acc).
Proof.
  revert acc. induction ms as [|kv ms IH]; intros acc Hms; simpl; [reflexivity|].
  rewrite IH by (intros kv' Hin; apply Hms; now right).
  assert (Hkv : fieldFor (fst kv) <> Some f) by (apply Hms; now left).
  unfold decodeMember.
  destruct (fieldFor (fst kv)) as [g|]; [|reflexivity].
  destruct (snd kv); simpl; try reflexivity.
  apply get_assign_other. congruence.
Qed.

(** ** The code after the loop *)

Lemma worker_built (net : nat -> Outcome) (r : ComparisonRow) :
  buildRequest r = true -> worker net r = finish (runLoop net) r.
Proof. intros H. unfold worker. rewrite H. simpl. now rewrite andb_false_r. Qed.

Lemma finish_answer (n : nat) (rp : Response) (z : Duration)
    (r : ComparisonRow) :
  finish (mkVars n (Some rp) false true (S n) z) r =
  if StatusCode rp =? 200 then
    match Unmarshal (ResponseBody rp) zeroAPIResponse with
    | (apiData, None) => Some (withAPI apiData (notPending r))
    | (_, Some _) => Some (withError "JSON Error" (notPending r))
    end
  else Some (withError ("HTTP " ++ formatInt (StatusCode rp)) (notPending r)).
Proof. reflexivity. Qed.

(** C1: a row resolved from an answer of status 200 whose body unmarshals
    carries the authoritative names of the body, and each of its three match
    flags is [strings.EqualFold] of its own input field and authoritative
    field. *)
Theorem resolved_flags_are_EqualFold (net : nat -> Outcome) (n : nat)
    (rp : Response) (apiData : APIResponse) (r : ComparisonRow) :
  (n < maxRetries)%nat ->
  (forall k, (k < n)%nat -> retryable (net k) = true) ->
  net n = Answer rp ->
  StatusCode rp = 200 ->
  Unmarshal (ResponseBody rp) zeroAPIResponse = (apiData, None) ->
  buildRequest r = true ->
  HasError r = false ->
  exists r',
    worker net r = Some r' /\ status r' = Resolved /\
    ID r' = ID r /\ DNI r' = DNI r /\
    NombreInput r' = NombreInput r /\ PaternoInput r' = PaternoInput r /\
    MaternoInput r' = MaternoInput r /\
    NombreAPI r' = FirstName apiData /\
    PaternoAPI r' = FirstLastName apiData /\
    MaternoAPI r' = SecondLastName apiData /\
    MatchNombre r' = EqualFold (NombreInput r') (NombreAPI r') /\
    MatchPaterno r' = EqualFold (PaternoInput r') (PaternoAPI r') /\
    MatchMaterno r' = EqualFold (MaternoInput r') (MaternoAPI r').
Proof.
  intros Hn Hk Ho Hc Hu Hq He.
  destruct (runLoop_first_answer net n rp Hn Hk Ho) as [_ E]; [lia|].
  exists (withAPI apiData (notPending r)).
  rewrite (worker_built net r Hq), E, finish_answer, Hc, Hu. simpl.
  unfold status. simpl. rewrite He. repeat split; reflexivity.
Qed.

(** C5: an answer whose status is neither 200 nor 429 ends the loop at
    once: no request follows it, no sleep either, and the row is failed with
    the tag ["HTTP <status>"]. *)
Theorem http_error_is_terminal (net : nat -> Outcome) (n : nat)
    (rp : Response) (r : ComparisonRow) :
  (n < maxRetries)%nat ->
  (forall k, (k < n)%nat -> retryable (net k) = true) ->
  net n = Answer rp ->
  StatusCode rp <> 200 ->
  StatusCode rp <> 429 ->
  buildRequest r = true ->
  looping (loopBody (Answer rp) (retryLoop n net enterLoop)) = false /\
  runLoop net = loopBody (Answer rp) (retryLoop n net enterLoop) /\
  requests (runLoop net) = S n /\
  asleep (runLoop net) = asleep (retryLoop n net enterLoop) /\
  exists r',
    worker net r = Some r' /\ status r' = Failed /\
    ErrorMessage r' = "HTTP " ++ formatInt (StatusCode rp).
Proof.
  intros Hn Hk Ho H200 H429 Hq.
  destruct (runLoop_first_answer net n rp Hn Hk Ho H429) as [E1 E2].
  split; [rewrite <- E1; apply runLoop_stops|].
  split; [exact E1|].
  rewrite E2. simpl. repeat split.
  exists (withError ("HTTP " ++ formatInt (StatusCode rp)) (notPending r)).
  rewrite (worker_built net r Hq), E2, finish_answer.
  apply Z.eqb_neq in H200. rewrite H200.
  repeat split.
Qed.

(** The time asleep after [n] answers of status 429. *)
Lemma asleep_rate_limited (net : nat -> Outcome) (n : nat) :
  (n <= maxRetries)%nat ->
  (1 + Z.of_nat maxRetries) * Second < 2 ^ 63 ->
  (forall k, (k < n)%nat ->
     exists rp, net k = Answer rp /\ StatusCode rp = 429) ->
  asleep (retryLoop n net enterLoop) = backoffSum n * Second.
Proof.
  intros Hn Hb Hk. induction n as [|n IH]; [reflexivity|].
  assert (Hr : forall k, (k < n)%nat -> retryable (net k) = true).
  { intros k Hlt. destruct (Hk k) as (rp & -> & Hc); [lia|].
    simpl. now apply Z.eqb_eq. }
  rewrite retryLoop_snoc by (assumption || lia).
  destruct (retryLoop_retrying n net enterLoop) as (_ & H2 & _);
    [reflexivity|simpl; lia|intros k Hk'; apply Hr; simpl in Hk'; lia|].
  destruct (Hk n) as (rp & -> & Hc); [lia|].
  simpl. rewrite Hc. simpl. rewrite H2, IH by (try lia; intros; apply Hk; lia).
  simpl. unfold Sleep, Second in *.
  rewrite (wrap64_small (2 + Z.of_nat n)) by lia.
  rewrite wrap64_small by lia. lia.
Qed.

(** C2, amended: a row whose every attempt is answered with status 429
    makes [MaxRetries] requests, sleeps [2 + k] seconds after the attempt of
    index [k], the last one included, and ends failed with the tag
    ["HTTP 429"]: the time asleep is the sum of [2 + k] seconds for [k] from
    [0] to [MaxRetries - 1]. *)
Theorem rate_limited_exhaustion (net : nat -> Outcome) (r : ComparisonRow) :
  (0 < maxRetries)%nat ->
  (1 + Z.of_nat maxRetries) * Second < 2 ^ 63 ->
  (forall k, (k < maxRetries)%nat ->
     exists rp, net k = Answer rp /\ StatusCode rp = 429) ->
  buildRequest r = true ->
  requests (runLoop net) = maxRetries /\
  asleep (runLoop net) = backoffSum maxRetries * Second /\
  exists r',
    worker net r = Some r' /\ status r' = Failed /\
    ErrorMessage r' = "HTTP 429".
Proof.
  intros Hpos Hb Hk Hq.
  assert (Hr : forall k, (k < maxRetries)%nat -> retryable (net k) = true).
  { intros k Hlt. destruct (Hk k) as (rp & -> & Hc); [lia|].
    simpl. now apply Z.eqb_eq. }
  destruct (retryLoop_retrying maxRetries net enterLoop) as (H1 & H2 & H3);
    [reflexivity|simpl; lia|intros k Hk'; apply Hr; simpl in Hk'; lia|].
  split; [exact H3|].
  split; [apply asleep_rate_limited; auto|].
  exists (withError "HTTP 429" (notPending r)).
  split; [|split; reflexivity].
  rewrite (worker_built net r Hq).
  unfold finish. fold (runLoop net) in H1. rewrite H1. simpl.
  unfold runLoop. destruct maxRetries as [|m] eqn:Em; [lia|].
  rewrite retryLoop_snoc by (try lia; intros; apply Hr; lia).
  destruct (Hk m) as (rp & -> & Hc); [lia|].
  simpl. rewrite Hc. simpl. rewrite Hc. reflexivity.
Qed.

(** The time asleep after [n] transport failures. *)
Lemma asleep_transport (net : nat -> Outcome) (n : nat) :
  (n <= maxRetries)%nat ->
  (forall k, (k < n)%nat -> exists rp, net k = TransportError rp) ->
  asleep (retryLoop n net enterLoop) = Z.of_nat n * Second.
Proof.
  intros Hn Hk. induction n as [|n IH]; [reflexivity|].
  assert (Hr : forall k, (k < n)%nat -> retryable (net k) = true).
  { intros k Hlt. destruct (Hk k) as (rp & ->); [lia|]. reflexivity. }
  rewrite retryLoop_snoc by (assumption || lia).
  destruct (Hk n) as (rp & ->); [lia|].
  simpl. rewrite IH by (try lia; intros; apply Hk; lia).
  unfold Sleep, Second. lia.
Qed.

(** C6: no row makes more than [MaxRetries] requests; a transport failure
    is followed by a sleep of one second, after which the loop goes round
    if attempts are left; a row whose every attempt fails in transport makes
    [MaxRetries] requests, one second apart, and ends failed with the tag
    ["Error Red"]. *)
Theorem transport_failures (net : nat -> Outcome) (r : ComparisonRow) :
  (requests (runLoop net) <= maxRetries)%nat /\
  (forall v rp,
     asleep (loopBody (TransportError rp) v) = asleep v + 1 * Second /\
     attempt (loopBody (TransportError rp) v) = S (attempt v) /\
     success (loopBody (TransportError rp) v) = success v) /\
  ((forall k, (k < maxRetries)%nat -> exists rp, net k = TransportError rp) ->
   buildRequest r = true ->
   requests (runLoop net) = maxRetries /\
   asleep (runLoop net) = Z.of_nat maxRetries * Second /\
   exists r',
     worker net r = Some r' /\ status r' = Failed /\
     ErrorMessage r' = "Error Red").
Proof.
  split; [apply requests_bound, loopInv_retryLoop, loopInv_enter|].
  split; [intros v rp; repeat split|].
  intros Hk Hq.
  assert (Hr : forall k, (k < maxRetries)%nat -> retryable (net k) = true).
  { intros k Hlt. destruct (Hk k) as (rp & ->); [lia|]. reflexivity. }
  destruct (retryLoop_retrying maxRetries net enterLoop) as (H1 & H2 & H3);
    [reflexivity|simpl; lia|intros k Hk'; apply Hr; simpl in Hk'; lia|].
  split; [exact H3|].
  split; [apply asleep_transport; auto|].
  exists (withError "Error Red" (notPending r)).
  split; [|split; reflexivity].
  rewrite (worker_built net r Hq).
  unfold finish. fold (runLoop net) in H1. rewrite H1. simpl.
  unfold runLoop. destruct maxRetries as [|m] eqn:Em; [reflexivity|].
  rewrite retryLoop_snoc by (try lia; intros; apply Hr; lia).
  destruct (Hk m) as (rp & ->); [lia|].
  simpl. destruct rp; reflexivity.
Qed.

(** C10, amended: an answer of status 200 gives a resolved row exactly when
    [json.Unmarshal] stores its body without an error, that is when the body
    is [null] or an object whose members naming a field of [APIResponse] are
    strings or [null]; a name field without a member is then the empty
    string and its flag compares the input with the empty string.  Every
    other body of an answer of status 200, a text that is not JSON or a
    JSON value of the wrong type, gives a row failed with the tag
    ["JSON Error"]. *)
Theorem success_payload (net : nat -> Outcome) (n : nat) (rp : Response)
    (r : ComparisonRow) :
  (n < maxRetries)%nat ->
  (forall k, (k < n)%nat -> retryable (net k) = true) ->
  net n = Answer rp ->
  StatusCode rp = 200 ->
  buildRequest r = true ->
  HasError r = false ->
  (decodes (ResponseBody rp) = true ->
   exists r',
     worker net r = Some r' /\ status r' = Resolved /\
     (absent first_name (ResponseBody rp) ->
      NombreAPI r' = "" /\ MatchNombre r' = EqualFold (NombreInput r) "") /\
     (absent first_last_name (ResponseBody rp) ->
      PaternoAPI r' = "" /\ MatchPaterno r' = EqualFold (PaternoInput r) "") /\
     (absent second_last_name (ResponseBody rp) ->
      MaternoAPI r' = "" /\ MatchMaterno r' = EqualFold (MaternoInput r) "")) /\
  (decodes (ResponseBody rp) = false ->
   exists r',
     worker net r = Some r' /\ status r' = Failed /\
     ErrorMessage r' = "JSON Error").
Proof.
  intros Hn Hk Ho Hc Hq He.
  destruct (runLoop_first_answer net n rp Hn Hk Ho) as [_ E]; [lia|].
  rewrite (worker_built net r Hq), E, finish_answer, Hc. simpl.
  pose proof (Unmarshal_error (ResponseBody rp) zeroAPIResponse) as Hu.
  destruct (Unmarshal (ResponseBody rp) zeroAPIResponse) as [apiData e] eqn:Eu.
  simpl in Hu. split; intros Hd.
  - apply Hu in Hd. subst e.
    exists (withAPI apiData (notPending r)).
    split; [reflexivity|].
    split; [unfold status; simpl; now rewrite He|].
    assert (Ha : forall f, absent f (ResponseBody rp) -> get f apiData = "").
    { intros f Hf. replace apiData with (fst (Unmarshal (ResponseBody rp) zeroAPIResponse))
        by now rewrite Eu.
      destruct (ResponseBody rp) as [raw|v]; [contradiction|].
      destruct v; try contradiction; simpl.
      - now destruct f.
      - rewrite decodeMembers_absent by exact Hf. now destruct f. }
    repeat split; simpl;
      match goal with
      | H : absent ?f _ |- _ => specialize (Ha f H); simpl in Ha; now rewrite Ha
      end.
  - destruct e as [e|]; [|rewrite (proj1 Hu eq_refl) in Hd; discriminate].
    exists (withError "JSON Error" (notPending r)).
    repeat split.
Qed.

(** ** The parser *)




Lemma parseRows_fresh (ids names : Scanner) (c : Z) :
  Forall fresh (parseRows ids names c).
Proof.
  revert names c. induction ids as [|text ids IH]; intros names c; simpl;
    [constructor|].
  destruct (String.eqb (TrimSpace text) ""); [apply IH|].
  destruct (Scan names) as [[t sc]|]; (constructor; [|apply IH]);
    unfold fresh; simpl; repeat split.
Qed.

Lemma seq_succ (a n : nat) : seq (S a) n = map S (seq a n).
Proof.
  revert a. induction n as [|n IH]; intros a; simpl; [reflexivity|].
  now rewrite IH.
Qed.

(** Identifiers are given in sequence from the counter. *)
Lemma parseRows_ids (ids names : Scanner) (c : Z) :
  map ID (parseRows ids names c) =
  map (fun k => c + Z.of_nat k) (seq 0 (length (parseRows ids names c))).
Proof.
  revert names c. induction ids as [|text ids IH]; intros names c; simpl;
    [reflexivity|].
  destruct (String.eqb (TrimSpace text) ""); [apply IH|].
  destruct (Scan names) as [[t sc]|]; simpl;
    (f_equal; [lia|]); rewrite IH, seq_succ, map_map;
    apply map_ext; intros k; lia.
Qed.

Lemma initialRows_ids (rawDnis rawNombres : string) :
  map ID (initialRows rawDnis rawNombres) =
  map Z.of_nat (seq 0 (length (initialRows rawDnis rawNombres))).
Proof.
  unfold initialRows. rewrite parseRows_ids. apply map_ext. intros k. lia.
Qed.

Lemma initialRows_NoDup (rawDnis rawNombres : string) :
  NoDup (map ID (initialRows rawDnis rawNombres)).
Proof.
  rewrite initialRows_ids. apply NoDup_fmap_2; [|apply NoDup_seq].
  intros a b. lia.
Qed.

(** * Properties of the goroutines *)

Lemma insert_split {A : Type} (l : list A) (i : nat) (x : A) :
  l !! i = Some x ->
  exists l1 l2,
    l = (l1 ++ x :: l2)%list /\
    forall y, <[i := y]> l = (l1 ++ y :: l2)%list.
Proof.
  intros H. exists (take i l), (drop (S i) l). split.
  - symmetry. now apply take_drop_middle.
  - intros y. apply insert_take_drop. eapply lookup_lt_Some, H.
Qed.

Lemma count_app {A : Type} (p : A -> bool) (l1 l2 : list A) :
  count p (l1 ++ l2)%list = (count p l1 + count p l2)%nat.
Proof.
  induction l1 as [|x l1 IH]; simpl; [reflexivity|].
  destruct (p x); simpl; now rewrite IH.
Qed.

Lemma count_zero {A : Type} (p : A -> bool) (l : list A) :
  count p l = O -> Forall (fun x => p x = false) l.
Proof.
  induction l as [|x l IH]; simpl; intros H; [constructor|].
  destruct (p x) eqn:E; [discriminate|]. constructor; auto.
Qed.

Lemma count_le {A : Type} (p q : A -> bool) (l : list A) :
  (forall x, p x = true -> q x = true) -> (count p l <= count q l)%nat.
Proof.
  intros H. induction l as [|x l IH]; simpl; [lia|].
  destruct (p x) eqn:E.
  - rewrite (H x E). lia.
  - destruct (q x); lia.
Qed.

Lemma filter_all {A : Type} (p : A -> bool) (l : list A) :
  Forall (fun x => p x = true) l -> List.filter p l = l.
Proof.
  induction 1 as [|x l Hx _ IH]; simpl; [reflexivity|].
  now rewrite Hx, IH.
Qed.

(** The code after the loop gives a row fit to be sent, with the identifier
    of the goroutine's argument. *)
Lemma finish_terminal (v : RetryVars) (a r : ComparisonRow) :
  fresh a -> finish v a = Some r -> ID r = ID a /\ terminal r.
Proof.
  intros (Hp & He & Hm & H1 & H2 & H3 & H4 & H5 & H6) Hf.
  assert (Herr : forall msg, msg <> "" ->
            ID (withError msg (notPending a)) = ID a /\
            terminal (withError msg (notPending a))).
  { intros msg Hmsg. split; [reflexivity|].
    unfold terminal, statusShape, status, unsetAPI. simpl.
    repeat split; auto; try discriminate. }
  unfold finish in Hf.
  destruct (negb (success v) || err v).
  - inversion Hf; subst r. apply Herr.
    destruct (resp v); [destruct (negb (err v))|]; discriminate.
  - destruct (resp v) as [rp|]; [|discriminate].
    destruct (StatusCode rp =? 200).
    + destruct (Unmarshal (ResponseBody rp) zeroAPIResponse) as [apiData [e|]];
        inversion Hf; subst r; [apply Herr; discriminate|].
      split; [reflexivity|].
      unfold terminal, statusShape, status, unsetAPI, flagsCompared. simpl.
      rewrite He, Hm. repeat split; auto; try discriminate; try congruence.
    + inversion Hf; subst r. apply Herr. discriminate.
Qed.

(** The nil dereference does not happen. *)
Lemma finish_defined (v : RetryVars) (a : ComparisonRow) :
  loopInv v -> exists r, finish v a = Some r.
Proof.
  unfold loopInv, finish. intros Hv.
  destruct (success v); simpl; [|eauto].
  destruct Hv as ((rp & ->) & -> & _). simpl.
  destruct (StatusCode rp =? 200); [|eauto].
  destruct (Unmarshal (ResponseBody rp) zeroAPIResponse) as [apiData [e|]]; eauto.
Qed.

(** The loop reads the registry at the indices of its attempts only. *)
Lemma retryLoop_ext (n : nat) (net net' : nat -> Outcome) (v : RetryVars) :
  (forall k, (attempt v <= k < attempt v + n)%nat -> net k = net' k) ->
  retryLoop n net v = retryLoop n net' v.
Proof.
  revert v. induction n as [|n IH]; intros v Hk; simpl; [reflexivity|].
  destruct (looping v) eqn:El; [|reflexivity].
  rewrite <- (Hk (attempt v)) by lia.
  destruct (net (attempt v)) as [rp|rp] eqn:Eo; simpl.
  - destruct (StatusCode rp =? 429) eqn:Ec.
    + apply IH. simpl. intros k Hk'. apply Hk. lia.
    + rewrite !retryLoop_idle; reflexivity.
  - apply IH. simpl. intros k Hk'. apply Hk. lia.
Qed.

Lemma fromLoop_enter (a : ComparisonRow) : fromLoop a enterLoop.
Proof.
  split; [apply loopInv_enter|]. split; [|intros H; now contradiction H].
  exists (fun _ => TransportError None). reflexivity.
Qed.

Lemma fromLoop_body (a : ComparisonRow) (o : Outcome) (v : RetryVars) :
  fromLoop a v -> looping v = true -> buildRequest a = true ->
  fromLoop a (loopBody o v).
Proof.
  intros (Hv & (net & Hnet) & _) Hl Ha.
  split; [now apply loopInv_body|]. split; [|auto].
  pose proof Hl as Hl'. apply andb_true_iff in Hl' as [Hs Hlt].
  apply negb_true_iff in Hs.
  assert (Hq : requests v = attempt v) by (unfold loopInv in Hv; rewrite Hs in Hv; tauto).
  exists (fun k => if (k =? attempt v)%nat then o else net k).
  replace (requests (loopBody o v)) with (requests v + 1)%nat
    by (destruct o as [rp|rp]; simpl; [destruct (StatusCode rp =? 429)|]; simpl; lia).
  rewrite retryLoop_add.
  rewrite (retryLoop_ext (requests v) _ net).
  - rewrite <- Hnet. simpl. rewrite Hl, Nat.eqb_refl. reflexivity.
  - simpl. intros k Hk.
    replace (k =? attempt v)%nat with false; [reflexivity|].
    symmetry. apply Nat.eqb_neq. lia.
Qed.

Lemma fromLoop_finish (a r : ComparisonRow) (v : RetryVars) :
  fromLoop a v -> looping v = false -> finish v a = Some r ->
  exists net, worker net a = Some r.
Proof.
  intros (Hv & (net & Hnet) & Hb) Hl Hf. exists net.
  assert (E : runLoop net = v).
  { unfold runLoop. pose proof (requests_bound v Hv).
    replace maxRetries with (requests v + (maxRetries - requests v))%nat by lia.
    rewrite retryLoop_add, <- Hnet. now apply retryLoop_idle. }
  unfold worker. rewrite E, Hf.
  destruct (looping enterLoop) eqn:El; [|reflexivity].
  rewrite Hb; [reflexivity|].
  intros Hz. rewrite Hz in Hnet. simpl in Hnet. subst v. congruence.
Qed.

Lemma Inv_start (rows : list ComparisonRow) : Inv rows (start rows).
Proof.
  constructor; simpl; try reflexivity; try constructor; try lia; discriminate.
Qed.

Ltac split_tasks H Hstep :=
  let l1 := fresh "l1" in
  let l2 := fresh "l2" in
  let E := fresh "E" in
  let Eins := fresh "Eins" in
  destruct (insert_split _ _ _ H) as (l1 & l2 & E & Eins);
  unfold setTask, setSem, setWg in Hstep; simpl in Hstep;
  rewrite ?Eins in Hstep; clear Eins H; subst.

Ltac list_norm :=
  rewrite ?map_app, ?count_app, ?List.filter_app, ?Forall_app, ?Forall_cons in *;
  simpl in *;
  rewrite ?map_app, ?Forall_cons in *.

Ltac closed_case H :=
  let Hc := fresh "Hc" in
  intros Hc; specialize (H Hc); (discriminate || assumption).

Lemma Inv_step (rows : list ComparisonRow) (e : Event) (s s' : State) :
  Forall fresh rows -> Inv rows s -> step e s = Some s' -> Inv rows s'.
Proof.
  intros Hfresh [Hrows Hsem Hcap Hwg Hrecv Htasks Hrcv Hwait Hclosed Hret] Hstep.
  destruct s as [la ts w sm cl rc pa [|]]; [discriminate|].
  unfold step, unlaunched in *. simpl in *.
  destruct e as [ | | | |i|i o|i|i|i|i]; simpl in Hstep.
  - (* EAdd *)
    destruct la as [[|row rs]| | |]; inversion Hstep; subst s'; clear Hstep.
    constructor; simpl in *; auto; try lia; try closed_case Hclosed;
      discriminate.
  - (* ESpawn *)
    destruct la as [|row rs| |]; inversion Hstep; subst s'; clear Hstep.
    constructor; unfold unlaunched; simpl in *; list_norm; auto;
      try lia; try closed_case Hclosed; try discriminate.
    + now rewrite <- app_assoc.
    + now rewrite app_nil_r.
  - (* EWait *)
    destruct la as [[|row rs]| | |]; try discriminate.
    destruct (w =? 0) eqn:Ew; inversion Hstep; subst s'; clear Hstep.
    apply Z.eqb_eq in Ew.
    constructor; simpl in *; auto; try closed_case Hclosed; discriminate.
  - (* EClose *)
    destruct la; inversion Hstep; subst s'; clear Hstep.
    constructor; simpl in *; auto.
  - (* EAcquire *)
    destruct (ts !! i) as [[a p]|] eqn:Hi; [|discriminate].
    destruct p; try discriminate.
    destruct (sm <? maxWorkers)%nat eqn:Hlt; [|discriminate].
    apply Nat.ltb_lt in Hlt.
    split_tasks Hi Hstep. inversion Hstep; subst s'; clear Hstep.
    constructor; unfold unlaunched; simpl in *; list_norm; auto; try lia.
    destruct Htasks as (Hl1 & _ & Hl2).
    split; [exact Hl1|split; [apply fromLoop_enter|exact Hl2]].
  - (* EAttempt *)
    destruct (ts !! i) as [[a p]|] eqn:Hi; [|discriminate].
    destruct p; try discriminate.
    destruct (looping v) eqn:Hl; [|discriminate].
    destruct (buildRequest a) eqn:Ea;
      [|inversion Hstep; subst s'; now constructor].
    split_tasks Hi Hstep. inversion Hstep; subst s'; clear Hstep.
    constructor; unfold unlaunched; simpl in *; list_norm; auto; try lia.
    destruct Htasks as (Hl1 & Hv & Hl2).
    split; [exact Hl1|split; [now apply fromLoop_body|exact Hl2]].
  - (* EFinish *)
    destruct (ts !! i) as [[a p]|] eqn:Hi; [|discriminate].
    destruct p; try discriminate.
    destruct (looping v) eqn:Hl; [discriminate|].
    destruct (finish v a) as [r|] eqn:Hf; [|discriminate].
    split_tasks Hi Hstep. inversion Hstep; subst s'; clear Hstep.
    assert (Ha : fresh a).
    { list_norm. now destruct Hfresh as ((_ & Ha & _) & _). }
    constructor; unfold unlaunched; simpl in *; list_norm; auto; try lia.
    destruct Htasks as (Hl1 & Hv & Hl2).
    split; [exact Hl1|split; [|exact Hl2]].
    destruct (finish_terminal v a r Ha Hf) as [Hid Hterm].
    split; [exact Hid|]. split; [exact Hterm|].
    now apply (fromLoop_finish a r v).
  - (* ESend *)
    destruct (ts !! i) as [[a p]|] eqn:Hi; [|discriminate].
    destruct p; try discriminate.
    destruct cl; [discriminate|].
    split_tasks Hi Hstep. inversion Hstep; subst s'; clear Hstep.
    list_norm. destruct Htasks as (Hl1 & (Hid & Hterm & net & Hnet) & Hl2).
    constructor; unfold unlaunched; simpl in *; list_norm; auto; try lia.
    + etrans; [apply Permutation_app_comm|]. simpl. rewrite Hid.
      now apply Permutation_cons_app.
    + split; [exact Hl1|split; [exact I|exact Hl2]].
    + split; [exact Hrcv|]. split; [|constructor].
      split; [exact Hterm|]. exists net, a. split; [|exact Hnet].
      apply in_or_app. left. apply in_or_app. right. now left.
  - (* ERelease *)
    destruct (ts !! i) as [[a p]|] eqn:Hi; [|discriminate].
    destruct p; try discriminate.
    destruct sm as [|sm]; [discriminate|].
    split_tasks Hi Hstep. inversion Hstep; subst s'; clear Hstep.
    constructor; unfold unlaunched; simpl in *; list_norm; auto; try lia.
  - (* EDone *)
    destruct (ts !! i) as [[a p]|] eqn:Hi; [|discriminate].
    destruct p; try discriminate.
    destruct (w - 1 <? 0) eqn:Hw; [discriminate|].
    split_tasks Hi Hstep. inversion Hstep; subst s'; clear Hstep.
    constructor; unfold unlaunched; simpl in *; list_norm; auto; try lia.
    destruct la; simpl in *; auto; lia.
Qed.

Lemma Inv_reachable (rows : list ComparisonRow) (s : State) :
  Forall fresh rows -> reachable (start rows) s -> Inv rows s.
Proof.
  intros Hfresh H. induction H as [|s e s' _ IH Hstep].
  - apply Inv_start.
  - exact (Inv_step rows e s s' Hfresh IH Hstep).
Qed.

Lemma exec_reachable (s0 : State) (evs : list Event) (s s' : State) :
  reachable s0 s -> exec evs s = Some s' -> reachable s0 s'.
Proof.
  revert s. induction evs as [|e evs IH]; intros s Hs H; simpl in H.
  - now inversion H; subst.
  - destruct (step e s) as [s1|] eqn:E; [|discriminate].
    apply (IH s1); [|exact H]. now apply (reachable_step s0 s e).
Qed.

Lemma outcomeOf_reachable (evs : list Event) (s0 : State) :
  reachable s0 (outcomeOf evs s0).
Proof.
  unfold outcomeOf. destruct (exec evs s0) as [s|] eqn:E; simpl.
  - eapply exec_reachable; [apply reachable_start|exact E].
  - apply reachable_start.
Qed.

Lemma NoDup_map_filter {A B : Type} (f : A -> B) (p : A -> bool) (l : list A) :
  NoDup (map f l) -> NoDup (map f (List.filter p l)).
Proof.
  induction l as [|x l IH]; simpl; intros H; [constructor|].
  apply NoDup_cons in H as [Hx Hl].
  destruct (p x); simpl; [|now apply IH].
  apply NoDup_cons. split; [|now apply IH].
  intros Hin. apply Hx.
  apply list_elem_of_In, in_map_iff in Hin as (y & Hy & Hin).
  apply filter_In in Hin as [Hin _].
  apply list_elem_of_In, in_map_iff. eauto.
Qed.

(** Once the producer is past [wg.Wait()], every goroutine it launched has
    exited and every row has been launched. *)
Lemma Inv_waited (rows : list ComparisonRow) (s : State) :
  Inv rows s ->
  launcher s = AtClose \/ launcher s = Returned ->
  Forall (fun t => pc t = Exited) (tasks s) /\ map arg (tasks s) = rows /\
  List.filter hasSent (tasks s) = tasks s.
Proof.
  intros [Hrows Hsem Hcap Hwg Hrecv Htasks Hrcv Hwait Hclosed Hret] Hl.
  assert (Hw : wg s = 0) by (destruct Hl as [E|E]; now rewrite E in Hwait).
  assert (Hp : pausing (launcher s) = 0) by (destruct Hl as [E|E]; now rewrite E).
  assert (Hu : unlaunched s = []) by
    (unfold unlaunched; destruct Hl as [E|E]; now rewrite E).
  rewrite Hu, app_nil_r in Hrows.
  assert (Hex : Forall (fun t => pc t = Exited) (tasks s)).
  { assert (Hc : count running (tasks s) = O) by lia.
    apply count_zero in Hc. eapply Forall_impl; [exact Hc|].
    intros t. unfold running. simpl. now destruct (pc t). }
  split; [exact Hex|]. split; [exact Hrows|].
  apply filter_all. eapply Forall_impl; [exact Hex|].
  intros t. unfold hasSent. simpl. now intros ->.
Qed.

Lemma handleConsultar_Inv (rawDnis rawNombres : string) (s : State) :
  reachable (handleConsultar rawDnis rawNombres) s ->
  Inv (initialRows rawDnis rawNombres) s.
Proof. apply Inv_reachable, parseRows_fresh. Qed.

(** C7: every row the consumer receives has an error message exactly when
    it is failed, has its authoritative names and match flags unset unless
    it is resolved, and is not pending. *)
Theorem delivered_rows_shape (rawDnis rawNombres : string) (s : State)
    (r : ComparisonRow) :
  reachable (handleConsultar rawDnis rawNombres) s ->
  In r (received s) ->
  (ErrorMessage r <> "" <-> status r = Failed) /\
  (status r <> Resolved -> unsetAPI r) /\
  status r <> Pending.
Proof.
  intros Hr Hin. pose proof (handleConsultar_Inv _ _ _ Hr) as HI.
  pose proof (inv_received _ _ HI) as Hall.
  rewrite List.Forall_forall in Hall.
  destruct (Hall r Hin) as (((H1 & H2) & H3 & _) & _). auto.
Qed.

(** The flags of a resolved row that the consumer receives. *)
Lemma delivered_rows_flags (rawDnis rawNombres : string) (s : State)
    (r : ComparisonRow) :
  reachable (handleConsultar rawDnis rawNombres) s ->
  In r (received s) -> status r = Resolved -> flagsCompared r.
Proof.
  intros Hr Hin. pose proof (handleConsultar_Inv _ _ _ Hr) as HI.
  pose proof (inv_received _ _ HI) as Hall.
  rewrite List.Forall_forall in Hall.
  destruct (Hall r Hin) as ((_ & _ & H3) & _). exact H3.
Qed.


(** C9: in every state the goroutines holding a permit are as many as the
    semaphore counts and at most [MaxWorkers]; the lookups in flight are
    among them; when the channel is closed every permit has been given
    back. *)
Theorem in_flight_bounded (rawDnis rawNombres : string) (s : State) :
  reachable (handleConsultar rawDnis rawNombres) s ->
  (inFlight s <= count holdsPermit (tasks s))%nat /\
  count holdsPermit (tasks s) = sem s /\
  (sem s <= maxWorkers)%nat /\
  (inFlight s <= maxWorkers)%nat /\
  (closed s = true -> sem s = O).
Proof.
  intros Hr. pose proof (handleConsultar_Inv _ _ _ Hr) as HI.
  pose proof HI as [_ Hsem Hcap _ _ _ _ _ Hclosed _].
  assert (Hle : (inFlight s <= count holdsPermit (tasks s))%nat).
  { apply count_le. intros t. unfold inLookup, holdsPermit.
    now destruct (pc t). }
  repeat split; try lia.
  intros Hc.
  destruct (Inv_waited _ s HI) as (Hex & _ & _); [right; auto|].
  rewrite Hsem. clear -Hex.
  induction Hex as [|t l Ht _ IH]; simpl; [reflexivity|].
  unfold holdsPermit at 1. now rewrite Ht.
Qed.

(** ** Every run ends, and ends with the close *)

Lemma tasksWeight_app (l1 l2 : list Task) :
  tasksWeight (l1 ++ l2) = (tasksWeight l1 + tasksWeight l2)%nat.
Proof. induction l1 as [|t l1 IH]; simpl; [reflexivity|]. rewrite IH. lia. Qed.

Lemma looping_attempt (v : RetryVars) :
  looping v = true -> success v = false /\ (attempt v < maxRetries)%nat.
Proof.
  unfold looping. intros H. apply andb_true_iff in H as [Hs Ha].
  apply negb_true_iff in Hs. apply Nat.ltb_lt in Ha. auto.
Qed.

Lemma loopBody_weight (a : ComparisonRow) (o : Outcome) (v : RetryVars) :
  looping v = true ->
  (taskWeight (mkTask a (InLoop (loopBody o v))) <
   taskWeight (mkTask a (InLoop v)))%nat.
Proof.
  intros Hl. unfold taskWeight. simpl. rewrite Hl.
  apply looping_attempt in Hl as [Hs Ha].
  destruct o as [rp|rp]; simpl.
  - destruct (StatusCode rp =? 429); unfold looping; simpl.
    + rewrite Hs. simpl.
      destruct (S (attempt v) <? maxRetries)%nat; lia.
    + lia.
  - unfold looping. simpl. rewrite Hs. simpl.
    destruct (S (attempt v) <? maxRetries)%nat; lia.
Qed.

(** Every move takes the program nearer to its end. *)
Lemma step_decreases (e : Event) (s s' : State) :
  step e s = Some s' -> (weight s' < weight s)%nat.
Proof.
  intros Hstep.
  destruct s as [la ts w sm cl rc pa [|]]; [discriminate|].
  unfold step, weight in *. simpl in *.
  destruct e as [ | | | |i|i o|i|i|i|i]; simpl in Hstep.
  - destruct la as [[|row rs]| | |]; inversion Hstep; subst s'; simpl; lia.
  - destruct la as [|row rs| |]; inversion Hstep; subst s'; simpl.
    rewrite tasksWeight_app. simpl. unfold taskWeight. simpl. lia.
  - destruct la as [[|row rs]| | |]; try discriminate.
    destruct (w =? 0); inversion Hstep; subst s'; simpl; lia.
  - destruct la; inversion Hstep; subst s'; simpl; lia.
  - destruct (ts !! i) as [[a p]|] eqn:Hi; [|discriminate].
    destruct p; try discriminate.
    destruct (sm <? maxWorkers)%nat; [|discriminate].
    split_tasks Hi Hstep. inversion Hstep; subst s'; clear Hstep. simpl.
    rewrite !tasksWeight_app. simpl. unfold taskWeight. simpl.
    destruct (looping enterLoop); lia.
  - destruct (ts !! i) as [[a p]|] eqn:Hi; [|discriminate].
    destruct p; try discriminate.
    destruct (looping v) eqn:Hl; [|discriminate].
    destruct (buildRequest a);
      [|inversion Hstep; subst s'; simpl; lia].
    split_tasks Hi Hstep. inversion Hstep; subst s'; clear Hstep. simpl.
    rewrite !tasksWeight_app. simpl.
    pose proof (loopBody_weight a o v Hl). lia.
  - destruct (ts !! i) as [[a p]|] eqn:Hi; [|discriminate].
    destruct p; try discriminate.
    destruct (looping v) eqn:Hl; [discriminate|].
    destruct (finish v a) as [r|]; [|discriminate].
    split_tasks Hi Hstep. inversion Hstep; subst s'; clear Hstep. simpl.
    rewrite !tasksWeight_app. simpl. unfold taskWeight. simpl.
    rewrite Hl. lia.
  - destruct (ts !! i) as [[a p]|] eqn:Hi; [|discriminate].
    destruct p; try discriminate.
    destruct cl; [discriminate|].
    split_tasks Hi Hstep. inversion Hstep; subst s'; clear Hstep. simpl.
    rewrite !tasksWeight_app. simpl. unfold taskWeight. simpl. lia.
  - destruct (ts !! i) as [[a p]|] eqn:Hi; [|discriminate].
    destruct p; try discriminate.
    destruct sm as [|sm]; [discriminate|].
    split_tasks Hi Hstep. inversion Hstep; subst s'; clear Hstep. simpl.
    rewrite !tasksWeight_app. simpl. unfold taskWeight. simpl. lia.
  - destruct (ts !! i) as [[a p]|] eqn:Hi; [|discriminate].
    destruct p; try discriminate.
    destruct (w - 1 <? 0); [discriminate|].
    split_tasks Hi Hstep. inversion Hstep; subst s'; clear Hstep. simpl.
    rewrite !tasksWeight_app. simpl. unfold taskWeight. simpl. lia.
Qed.

(** No run is longer than the weight of the state it starts from. *)
Lemma exec_bounded (evs : list Event) (s s' : State) :
  exec evs s = Some s' -> (length evs + weight s' <= weight s)%nat.
Proof.
  revert s. induction evs as [|e evs IH]; intros s H; simpl in H.
  - inversion H; subst. simpl. lia.
  - destruct (step e s) as [s1|] eqn:E; [|discriminate].
    apply step_decreases in E. apply IH in H. simpl. lia.
Qed.

Lemma count_pos {A : Type} (p : A -> bool) (l : list A) (i : nat) (x : A) :
  l !! i = Some x -> p x = true -> (0 < count p l)%nat.
Proof.
  intros Hi Hp. destruct (insert_split l i x Hi) as (l1 & l2 & -> & _).
  rewrite count_app. simpl. rewrite Hp. lia.
Qed.

(** Among goroutines that have not all exited, one is past its acquire, or
    none holds a permit and one waits for it. *)
Lemma running_cases (l : list Task) :
  (0 < count running l)%nat ->
  (exists i t, l !! i = Some t /\ ready t = true) \/
  (count holdsPermit l = O /\ exists i t, l !! i = Some t /\ pc t = AtAcquire).
Proof.
  induction l as [|t l IH]; simpl; [lia|]. intros H.
  destruct (ready t) eqn:Er; [left; exists O, t; auto|].
  assert (Hh : holdsPermit t = false).
  { unfold ready, holdsPermit in *. destruct (pc t); congruence. }
  rewrite Hh.
  destruct (pc t) eqn:Ep; try (unfold ready in Er; rewrite Ep in Er; discriminate).
  - (* AtAcquire *)
    destruct (count running l) eqn:Ec.
    + right. split.
      * pose proof (count_le holdsPermit running l) as Hle.
        rewrite Ec in Hle. assert (count holdsPermit l <= 0)%nat; [|lia].
        apply Hle. intros x. unfold holdsPermit, running. now destruct (pc x).
      * exists O, t. auto.
    + destruct IH as [(i & t' & Hi & Hr)|(Hc & i & t' & Hi & Hp)]; [lia| |].
      * left. exists (S i), t'. auto.
      * right. split; [exact Hc|]. exists O, t. auto.
  - (* Exited *)
    unfold running in H. rewrite Ep in H.
    destruct IH as [(i & t' & Hi & Hr)|(Hc & i & t' & Hi & Hp)]; [exact H| |].
    + left. exists (S i), t'. auto.
    + right. split; [exact Hc|]. exists (S i), t'. auto.
Qed.

(** As long as the channel is open and no goroutine has panicked, some
    goroutine can move: the program has no deadlock. *)
Lemma Inv_progress (rows : list ComparisonRow) (s : State) :
  (0 < maxWorkers)%nat ->
  Inv rows s -> closed s = false -> panicked s = false ->
  exists e s', step e s = Some s'.
Proof.
  intros HW [Hrows Hsem Hcap Hwg Hrecv Htasks Hrcv Hwait Hclosed Hret] Hc Hp.
  destruct s as [la ts w sm cl rc pa pk]. simpl in *. subst cl pk.
  unfold step. simpl.
  destruct la as [[|row rs]|row rs| |].
  - (* the producer is at wg.Wait() *)
    destruct (w =? 0) eqn:Ew.
    { exists EWait. simpl. rewrite Ew. eauto. }
    apply Z.eqb_neq in Ew. simpl in Hwg.
    destruct (running_cases ts) as [(i & [a p] & Hi & Hr)|(Hz & i & [a p] & Hi & Hpc)];
      [lia| |].
    + rewrite List.Forall_forall in Htasks.
      assert (Hok : taskOk (mkTask a p)).
      { apply Htasks. apply list_elem_of_In. eapply list_elem_of_lookup_2, Hi. }
      destruct p; try discriminate.
      * destruct (looping v) eqn:El.
        -- exists (EAttempt i (TransportError None)). simpl. rewrite Hi, El.
           destruct (buildRequest a); eauto.
        -- destruct (finish_defined v a (proj1 Hok)) as [r Hf].
           exists (EFinish i). simpl. rewrite Hi, El, Hf. eauto.
      * exists (ESend i). simpl. rewrite Hi. eauto.
      * pose proof (count_pos holdsPermit ts i _ Hi eq_refl).
        destruct sm as [|sm]; [lia|].
        exists (ERelease i). simpl. rewrite Hi. eauto.
      * pose proof (count_pos running ts i _ Hi eq_refl).
        exists (EDone i). simpl. rewrite Hi.
        replace (w - 1 <? 0) with false by (symmetry; apply Z.ltb_ge; lia).
        eauto.
    + simpl in Hpc. subst p.
      exists (EAcquire i). simpl. rewrite Hi.
      replace (sm <? maxWorkers)%nat with true
        by (symmetry; apply Nat.ltb_lt; lia).
      eauto.
  - exists EAdd. simpl. eauto.
  - exists ESpawn. simpl. eauto.
  - exists EClose. simpl. eauto.
  - now specialize (Hret eq_refl).
Qed.

(** A goroutine panics only on a request that cannot be built. *)
Lemma Inv_no_panic (rows : list ComparisonRow) (e : Event) (s s' : State) :
  (forall r, In r rows -> buildRequest r = true) ->
  Inv rows s -> step e s = Some s' -> panicked s' = false.
Proof.
  intros Hb HI Hstep. pose proof (inv_rows _ _ HI) as Hrows.
  destruct s as [la ts w sm cl rc pa [|]]; [discriminate|].
  unfold step in Hstep. simpl in *.
  destruct e as [ | | | |i|i o|i|i|i|i]; simpl in Hstep;
    try (destruct la as [[|row rs]|row rs| |]; try discriminate;
         try destruct (w =? 0); inversion Hstep; reflexivity);
    destruct (ts !! i) as [[a p]|] eqn:Hi; try discriminate;
    destruct p; try discriminate.
  - destruct (sm <? maxWorkers)%nat; inversion Hstep; reflexivity.
  - destruct (looping v); [|discriminate].
    destruct (buildRequest a) eqn:Ea; [inversion Hstep; reflexivity|].
    rewrite Hb in Ea; [discriminate|].
    rewrite <- Hrows. apply in_or_app. left.
    apply (in_map arg _ (mkTask a (InLoop v))).
    apply list_elem_of_In. eapply list_elem_of_lookup_2, Hi.
  - destruct (looping v); [discriminate|].
    destruct (finish v a); inversion Hstep; reflexivity.
  - destruct cl; inversion Hstep; reflexivity.
  - destruct sm; inversion Hstep; reflexivity.
  - destruct (w - 1 <? 0); inversion Hstep; reflexivity.
Qed.

Lemma exec_app (evs1 evs2 : list Event) (s s1 : State) :
  exec evs1 s = Some s1 -> exec (evs1 ++ evs2) s = exec evs2 s1.
Proof.
  revert s. induction evs1 as [|e evs1 IH]; intros s H; simpl in *.
  - now inversion H.
  - destruct (step e s) as [s'|]; [now apply IH|discriminate].
Qed.


Lemma reachable_no_panic (rows : list ComparisonRow) (s : State) :
  (forall r, In r rows -> buildRequest r = true) ->
  Forall fresh rows ->
  reachable (start rows) s -> panicked s = false.
Proof.
  intros Hb Hfresh H. inversion H as [|s1 e s2 H1 Hstep]; subst; [reflexivity|].
  apply (Inv_no_panic rows e s1 s Hb); [|exact Hstep].
  now apply Inv_reachable.
Qed.

(** Every row the consumer receives is the result of the goroutine of
    Part 4 on a parsed row, against some registry. *)
Lemma received_rows_produced (rawDnis rawNombres : string) (s : State)
    (r : ComparisonRow) :
  reachable (handleConsultar rawDnis rawNombres) s ->
  In r (received s) ->
  exists net a,
    In a (initialRows rawDnis rawNombres) /\ worker net a = Some r.
Proof.
  intros Hr Hin. pose proof (handleConsultar_Inv _ _ _ Hr) as HI.
  pose proof (inv_received _ _ HI) as Hall.
  rewrite List.Forall_forall in Hall.
  destruct (Hall r Hin) as (_ & Hp). exact Hp.
Qed.


Lemma finish_inputs (v : RetryVars) (r r' : ComparisonRow) :
  finish v r = Some r' ->
  ID r' = ID r /\ DNI r' = DNI r /\ NombreInput r' = NombreInput r /\
  PaternoInput r' = PaternoInput r /\ MaternoInput r' = MaternoInput r /\
  IsPending r' = false.
Proof.
  unfold finish.
  destruct (negb (success v) || err v).
  - intros H; inversion H; subst. repeat split.
  - destruct (resp v) as [rp|]; [|discriminate].
    destruct (StatusCode rp =? 200).
    + destruct (Unmarshal (ResponseBody rp) zeroAPIResponse) as [d [e|]];
        intros H; inversion H; subst; repeat split.
    + intros H; inversion H; subst. repeat split.
Qed.

(** ** The row whose request cannot be built

    [req, _ := http.NewRequest(...)] drops the error: for a URL that
    [url.Parse] rejects [req] is nil and [req.Header.Set] panics. *)

Lemma NoDup_map_eq {A B : Type} (f : A -> B) (l : list A) (x y : A) :
  NoDup (map f l) -> In x l -> In y l -> f x = f y -> x = y.
Proof.
  induction l as [|z l IH]; simpl; intros Hnd Hx Hy E; [contradiction|].
  apply NoDup_cons in Hnd as [Hz Hnd].
  destruct Hx as [->|Hx], Hy as [->|Hy]; auto.
  - exfalso. apply Hz. rewrite E. now apply list_elem_of_In, in_map.
  - exfalso. apply Hz. rewrite <- E. now apply list_elem_of_In, in_map.
Qed.

Lemma worker_without_request (net : nat -> Outcome) (a : ComparisonRow) :
  (0 < maxRetries)%nat -> buildRequest a = false -> worker net a = None.
Proof.
  intros H0 Hb. unfold worker. rewrite Hb.
  replace (looping enterLoop) with (0 <? maxRetries)%nat by reflexivity.
  apply Nat.ltb_lt in H0. now rewrite H0.
Qed.

Lemma worker_ID (net : nat -> Outcome) (a r : ComparisonRow) :
  worker net a = Some r -> ID r = ID a.
Proof.
  unfold worker.
  destruct (looping enterLoop && negb (buildRequest a)); [discriminate|].
  intros H. now apply finish_inputs in H.
Qed.

(** No row is received under the identifier of a row whose request cannot
    be built, and the channel is not closed. *)
Lemma unbuildable_row_open (rawDnis rawNombres : string)
    (a : ComparisonRow) (s : State) :
  (0 < maxRetries)%nat ->
  In a (initialRows rawDnis rawNombres) ->
  buildRequest a = false ->
  reachable (handleConsultar rawDnis rawNombres) s ->
  ~ In (ID a) (map ID (received s)) /\ closed s = false.
Proof.
  intros H0 Ha Hb Hr.
  assert (Hno : ~ In (ID a) (map ID (received s))).
  { intros Hin. apply in_map_iff in Hin as (r & Hid & Hin).
    destruct (received_rows_produced _ _ _ _ Hr Hin) as (net & a' & Ha' & Hw).
    assert (a' = a).
    { apply (NoDup_map_eq ID (initialRows rawDnis rawNombres)); auto.
      - apply initialRows_NoDup.
      - rewrite <- Hid. symmetry. exact (worker_ID _ _ _ Hw). }
    subst a'. rewrite (worker_without_request net a H0 Hb) in Hw.
    discriminate. }
  split; [exact Hno|].
  destruct (closed s) eqn:Hc; [|reflexivity].
  exfalso. apply Hno.
  pose proof (handleConsultar_Inv _ _ _ Hr) as HI.
  pose proof (inv_recv _ _ HI) as Hrecv.
  destruct (Inv_waited _ s HI) as (_ & Hargs & Hall);
    [right; exact (inv_closed _ _ HI Hc)|].
  eapply Permutation_in; [symmetry; exact Hrecv|].
  rewrite Hall, <- map_map, Hargs. now apply in_map.
Qed.

Lemma unbuildable_row_panics (rawDnis rawNombres : string)
    (a : ComparisonRow) (n : nat) (s : State) :
  (0 < maxRetries)%nat -> (0 < maxWorkers)%nat ->
  In a (initialRows rawDnis rawNombres) ->
  buildRequest a = false ->
  (weight s <= n)%nat ->
  reachable (handleConsultar rawDnis rawNombres) s ->
  exists evs s', exec evs s = Some s' /\ panicked s' = true.
Proof.
  intros H0 HW Ha Hb. revert s.
  induction n as [|n IH]; intros s Hn Hr;
    (destruct (panicked s) eqn:Hp; [exists [], s; auto|]).
  - unfold weight in Hn. rewrite Hp in Hn. lia.
  - destruct (unbuildable_row_open _ _ a s H0 Ha Hb Hr) as [_ Hc].
    pose proof (handleConsultar_Inv _ _ _ Hr) as HI.
    destruct (Inv_progress _ s HW HI Hc Hp) as (e & s1 & Hstep).
    destruct (IH s1) as (evs & s' & Hx & Hp').
    + apply step_decreases in Hstep. lia.
    + exact (reachable_step _ s e s1 Hr Hstep).
    + exists (e :: evs), s'. simpl. rewrite Hstep. auto.
Qed.

(** C4: the code loses a row.  When the request of a parsed row cannot be
    built (and there is at least one attempt), then in every state that a
    run of the batch reaches no row has been received under the identifier
    of that row and the channel is not closed; and every such run can be
    continued, when there is a permit, to the panic of a goroutine, after
    which nothing moves: the identifiers delivered are never those given
    by the parser. *)
Theorem unbuildable_row_is_never_delivered (rawDnis rawNombres : string)
    (a : ComparisonRow) (s : State) :
  (0 < maxRetries)%nat ->
  In a (initialRows rawDnis rawNombres) ->
  buildRequest a = false ->
  reachable (handleConsultar rawDnis rawNombres) s ->
  In (ID a) (map ID (initialRows rawDnis rawNombres)) /\
  ~ In (ID a) (map ID (received s)) /\
  closed s = false /\
  ((0 < maxWorkers)%nat ->
   exists evs s',
     exec evs s = Some s' /\ panicked s' = true /\
     closed s' = false /\ ~ In (ID a) (map ID (received s')) /\
     forall e, step e s' = None).
Proof.
  intros H0 Ha Hb Hr.
  split; [now apply in_map|].
  destruct (unbuildable_row_open _ _ a s H0 Ha Hb Hr) as [Hno Hc].
  split; [exact Hno|]. split; [exact Hc|].
  intros HW.
  destruct (unbuildable_row_panics _ _ a (weight s) s H0 HW Ha Hb (le_n _) Hr)
    as (evs & s' & Hx & Hp).
  exists evs, s'. split; [exact Hx|]. split; [exact Hp|].
  destruct (unbuildable_row_open _ _ a s' H0 Ha Hb
              (exec_reachable _ evs s s' Hr Hx)) as [Hno' Hc'].
  split; [exact Hc'|]. split; [exact Hno'|].
  intros e. unfold step. now rewrite Hp.
Qed.

(** * Further properties of the parser *)

Lemma Split_length (s : string) (sep : ascii) :
  length (Split s sep) = S (occurrences sep s).
Proof.
  induction s as [|c s IH]; simpl; [reflexivity|].
  destruct (Ascii.eqb c sep); simpl; [now rewrite IH|].
  destruct (Split s sep); simpl in *; lia.
Qed.

Lemma Split_app (s x : string) (sep : ascii) :
  Split (s ++ String sep x) sep = (Split s sep ++ Split x sep)%list.
Proof.
  induction s as [|c s IH]; simpl.
  - now rewrite Ascii.eqb_refl.
  - destruct (Ascii.eqb c sep); simpl; [now rewrite IH|].
    rewrite IH. pose proof (Split_length s sep) as Hl.
    destruct (Split s sep); simpl in *; [lia|reflexivity].
Qed.


(** X2: every parsed row carries an identifier that is not empty and is
    the trimmed text of an identifier line, and is pending, without error,
    authoritative names or flags. *)
Theorem parsed_rows_are_pending (rawDnis rawNombres : string)
    (r : ComparisonRow) :
  In r (initialRows rawDnis rawNombres) ->
  DNI r <> "" /\
  (exists text, In text (NewScanner rawDnis) /\ DNI r = TrimSpace text) /\
  status r = Pending /\ HasError r = false /\ ErrorMessage r = "" /\
  unsetAPI r.
Proof.
  unfold initialRows. generalize (NewScannerNames rawNombres) 0.
  induction (NewScanner rawDnis) as [|text ids IH]; intros names c Hin;
    simpl in Hin; [contradiction|].
  destruct (String.eqb (TrimSpace text) "") eqn:E.
  - destruct (IH _ _ Hin) as (H1 & (t & Ht & Hd) & H2).
    split; [exact H1|]. split; [|exact H2]. exists t. split; [now right|exact Hd].
  - apply String.eqb_neq in E.
    destruct (Scan names) as [[t sc]|]; destruct Hin as [<-|Hin];
      try (destruct (IH _ _ Hin) as (H1 & (t' & Ht & Hd) & H2);
           split; [exact H1|]; split; [|exact H2];
           exists t'; split; [now right|exact Hd]);
      (split; [exact E|]; split; [exists text; split; [now left|reflexivity]|];
       unfold status, unsetAPI; simpl; repeat split).
Qed.

(** X3: a name line with no tab gives no surnames and one with a single tab
    no second surname; what follows a third tab is ignored. *)
Theorem name_fields_by_tabs (idCounter : Z) (dni lineaNombre : string) :
  ((occurrences TAB lineaNombre < 1)%nat ->
   PaternoInput (newRow idCounter dni lineaNombre) = "") /\
  ((occurrences TAB lineaNombre < 2)%nat ->
   MaternoInput (newRow idCounter dni lineaNombre) = "") /\
  ((2 <= occurrences TAB lineaNombre)%nat ->
   forall rest,
     newRow idCounter dni (lineaNombre ++ String TAB rest) =
     newRow idCounter dni lineaNombre).
Proof.
  pose proof (Split_length lineaNombre TAB) as Hl.
  split; [|split]; intros H; unfold newRow; simpl.
  - rewrite (lookup_ge_None_2 (Split lineaNombre TAB) 1); [reflexivity|lia].
  - rewrite (lookup_ge_None_2 (Split lineaNombre TAB) 2); [reflexivity|lia].
  - intros rest. rewrite Split_app.
    rewrite !lookup_app_l by lia. reflexivity.
Qed.

(** * Further properties of the worker *)

(** After a pass that is not followed by a retry the only response the
    variables can hold without error is a rate-limited one. *)
Lemma exhausted_response (n : nat) (net : nat -> Outcome) (v : RetryVars) :
  (success v = false -> err v = false ->
   forall rp, resp v = Some rp -> StatusCode rp = 429) ->
  success (retryLoop n net v) = false -> err (retryLoop n net v) = false ->
  forall rp, resp (retryLoop n net v) = Some rp -> StatusCode rp = 429.
Proof.
  revert v. induction n as [|n IH]; intros v Hv; simpl; [exact Hv|].
  destruct (looping v); [|exact Hv].
  apply IH. destruct (net (attempt v)) as [rp|rp]; simpl.
  - destruct (StatusCode rp =? 429) eqn:Ec; simpl.
    + intros _ _ rp' Hr. inversion Hr; subst. now apply Z.eqb_eq.
    + discriminate.
  - discriminate.
Qed.

Lemma backoff_le (o : Outcome) (k : nat) :
  0 <= backoff o k <= (2 + Z.of_nat k) * Second.
Proof.
  unfold backoff, Second. destruct o as [rp|rp]; [destruct (StatusCode rp =? 429)|]; lia.
Qed.

Lemma backoffs_le (net : nat -> Outcome) (n : nat) :
  0 <= backoffs net n <= backoffSum n * Second.
Proof.
  induction n as [|n IH]; simpl; [lia|].
  pose proof (backoff_le (net n) n). lia.
Qed.

Lemma backoffSum_mono (n m : nat) : (n <= m)%nat -> backoffSum n <= backoffSum m.
Proof. induction 1; simpl; lia. Qed.

Lemma retryLoop_asleep (n : nat) (net : nat -> Outcome) (v : RetryVars) :
  (1 + Z.of_nat maxRetries) * Second < 2 ^ 63 ->
  asleep v = backoffs net (attempt v) ->
  asleep (retryLoop n net v) = backoffs net (attempt (retryLoop n net v)).
Proof.
  intros Hb. revert v. induction n as [|n IH]; intros v Hv; simpl; [exact Hv|].
  destruct (looping v) eqn:El; [|exact Hv].
  apply looping_attempt in El as [_ Ha].
  apply IH. unfold loopBody, backoff, Sleep, Second in *.
  destruct (net (attempt v)) as [rp|rp] eqn:Eo; simpl.
  - destruct (StatusCode rp =? 429) eqn:Ec; simpl; [|exact Hv].
    rewrite Eo. unfold backoff. rewrite Ec.
    rewrite (wrap64_small (2 + Z.of_nat (attempt v))) by lia.
    rewrite wrap64_small by lia. unfold Second. lia.
  - rewrite Eo. unfold backoff, Second. lia.
Qed.

(** X4: whatever the registry answers, the time a worker spends asleep is
    the sum, over the attempts it retried, of one second for a transport
    failure and of [2 + k] seconds for a rate-limited answer at the attempt
    of index [k]; it is at most the sum of [2 + k] seconds over all
    [MaxRetries] attempts. *)
Theorem backoff_total (net : nat -> Outcome) :
  (1 + Z.of_nat maxRetries) * Second < 2 ^ 63 ->
  asleep (runLoop net) = backoffs net (attempt (runLoop net)) /\
  0 <= asleep (runLoop net) <= backoffSum maxRetries * Second.
Proof.
  intros Hb.
  assert (E : asleep (runLoop net) = backoffs net (attempt (runLoop net)))
    by (apply retryLoop_asleep; [exact Hb|reflexivity]).
  split; [exact E|]. rewrite E.
  pose proof (backoffs_le net (attempt (runLoop net))) as Hle.
  assert (Ha : (attempt (runLoop net) <= maxRetries)%nat).
  { pose proof (loopInv_retryLoop maxRetries net enterLoop loopInv_enter) as Hi.
    fold (runLoop net) in Hi. unfold loopInv in Hi.
    destruct (success (runLoop net)); lia. }
  apply backoffSum_mono in Ha. unfold Second in *. nia.
Qed.

(** X5: when every attempt ends in a retry, the tag of the failed row is
    decided by the last attempt alone: ["HTTP 429"] after a rate-limited
    answer, ["Error Red"] after a transport failure. *)
Theorem exhaustion_tag (net : nat -> Outcome) (m : nat) (r : ComparisonRow) :
  maxRetries = S m ->
  (forall k, (k < maxRetries)%nat -> retryable (net k) = true) ->
  buildRequest r = true ->
  worker net r =
  Some (withError
          match net m with
          | Answer _ => "HTTP 429"
          | TransportError _ => "Error Red"
          end (notPending r)).
Proof.
  intros Em Hk Hq. rewrite (worker_built net r Hq).
  destruct (retryLoop_retrying maxRetries net enterLoop) as (H1 & _ & _);
    [reflexivity|simpl; lia|intros k Hk'; apply Hk; simpl in Hk'; lia|].
  unfold finish. fold (runLoop net) in H1. rewrite H1. simpl.
  unfold runLoop. rewrite Em.
  rewrite retryLoop_snoc by (try lia; intros; apply Hk; lia).
  assert (Hm : retryable (net m) = true) by (apply Hk; lia).
  destruct (net m) as [rp|rp]; simpl in *.
  - rewrite Hm. simpl. apply Z.eqb_eq in Hm. rewrite Hm. reflexivity.
  - destruct rp; reflexivity.
Qed.

(** X6: the worker changes neither the identifier of a row, nor its DNI,
    nor its input names, and the row it sends is no longer pending. *)
Theorem worker_keeps_inputs (net : nat -> Outcome) (r r' : ComparisonRow) :
  worker net r = Some r' ->
  ID r' = ID r /\ DNI r' = DNI r /\ NombreInput r' = NombreInput r /\
  PaternoInput r' = PaternoInput r /\ MaternoInput r' = MaternoInput r /\
  IsPending r' = false.
Proof.
  unfold worker.
  destruct (looping enterLoop && negb (buildRequest r)); [discriminate|].
  apply finish_inputs.
Qed.

(** X7: the message of a row that the worker fails is ["Error Red"],
    ["JSON Error"], or ["HTTP "] followed by a status that is not 200. *)
Theorem failure_tags (net : nat -> Outcome) (r r' : ComparisonRow) :
  worker net r = Some r' ->
  HasError r = false ->
  HasError r' = true ->
  ErrorMessage r' = "Error Red" \/ ErrorMessage r' = "JSON Error" \/
  exists code, code <> 200 /\ ErrorMessage r' = "HTTP " ++ formatInt code.
Proof.
  unfold worker, finish.
  destruct (looping enterLoop && negb (buildRequest r)); [discriminate|].
  pose proof (exhausted_response maxRetries net enterLoop) as Hx.
  fold (runLoop net) in Hx.
  destruct (success (runLoop net)) eqn:Es; simpl.
  - destruct (err (runLoop net)) eqn:Ee; simpl.
    + intros H _ _. inversion H; subst. simpl.
      destruct (resp (runLoop net)); auto.
    + destruct (resp (runLoop net)) as [rp|]; [|discriminate].
      destruct (StatusCode rp =? 200) eqn:Ec.
      * destruct (Unmarshal (ResponseBody rp) zeroAPIResponse) as [d [e|]];
          intros H He He'; inversion H; subst; simpl in *; [auto|congruence].
      * intros H _ _. inversion H; subst. simpl. right. right.
        exists (StatusCode rp). split; [now apply Z.eqb_neq|reflexivity].
  - intros H _ _. inversion H; subst. simpl.
    destruct (resp (runLoop net)) as [rp|] eqn:Er; [|auto].
    destruct (err (runLoop net)) eqn:Ee; simpl; [auto|].
    right. right. exists (StatusCode rp). split; [|reflexivity].
    rewrite (Hx ltac:(discriminate) eq_refl eq_refl rp eq_refl). discriminate.
Qed.

(** X8: the worker panics in one case only, on a request that cannot be
    built; the nil dereference after the loop does not happen. *)
Theorem worker_panics_only_without_request (net : nat -> Outcome)
    (r : ComparisonRow) :
  worker net r = None <->
  (0 < maxRetries)%nat /\ buildRequest r = false.
Proof.
  unfold worker.
  assert (El : looping enterLoop = (0 <? maxRetries)%nat) by reflexivity.
  rewrite El.
  destruct (finish_defined (runLoop net) r) as [r' Hf];
    [apply loopInv_retryLoop, loopInv_enter|].
  rewrite Hf. split.
  - destruct (0 <? maxRetries)%nat eqn:E0; [|discriminate].
    destruct (buildRequest r); [discriminate|].
    intros _. apply Nat.ltb_lt in E0. auto.
  - intros [H0 ->]. apply Nat.ltb_lt in H0. now rewrite H0.
Qed.

(** X9: the row a worker sends depends on the first answer that is not
    rate limited, and on nothing that came before it: two registries that
    give the same such answer, after however many retries, give the same
    row. *)
Theorem worker_forgets_retries (net net' : nat -> Outcome) (n n' : nat)
    (rp : Response) (r : ComparisonRow) :
  (n < maxRetries)%nat -> (n' < maxRetries)%nat ->
  (forall k, (k < n)%nat -> retryable (net k) = true) ->
  (forall k, (k < n')%nat -> retryable (net' k) = true) ->
  net n = Answer rp -> net' n' = Answer rp ->
  StatusCode rp <> 429 ->
  worker net r = worker net' r.
Proof.
  intros Hn Hn' Hk Hk' Ho Ho' Hc.
  destruct (runLoop_first_answer net n rp Hn Hk Ho Hc) as [_ E].
  destruct (runLoop_first_answer net' n' rp Hn' Hk' Ho' Hc) as [_ E'].
  unfold worker. rewrite E, E', !finish_answer. reflexivity.
Qed.

(** * Further properties of the goroutines *)

(** X10: the goroutines are launched in the order of the parsed rows: at
    every moment their arguments are the first rows of the batch and the
    rows still to launch are the rest. *)
Theorem launched_in_input_order (rawDnis rawNombres : string) (s : State) :
  reachable (handleConsultar rawDnis rawNombres) s ->
  map arg (tasks s) =
  take (length (tasks s)) (initialRows rawDnis rawNombres) /\
  unlaunched s = drop (length (tasks s)) (initialRows rawDnis rawNombres).
Proof.
  intros Hr. pose proof (inv_rows _ _ (handleConsultar_Inv _ _ _ Hr)) as H.
  rewrite <- H.
  replace (length (tasks s)) with (length (map arg (tasks s)))
    by apply length_map.
  split.
  - now rewrite take_app_length.
  - now rewrite drop_app_length.
Qed.

Lemma step_paced (e : Event) (s s' : State) :
  step e s = Some s' ->
  paced s = Z.of_nat (length (tasks s)) * RequestDelay ->
  paced s' = Z.of_nat (length (tasks s')) * RequestDelay.
Proof.
  intros Hstep Hp.
  destruct s as [la ts w sm cl rc pa [|]]; [discriminate|].
  unfold step in Hstep. simpl in *.
  destruct e as [ | | | |i|i o|i|i|i|i]; simpl in Hstep;
    try (destruct la as [[|row rs]|row rs| |]; try discriminate;
         try destruct (w =? 0); inversion Hstep; subst; simpl;
         rewrite ?length_app; simpl; unfold Sleep, RequestDelay, Millisecond in *;
         lia);
    destruct (ts !! i) as [[a p]|] eqn:Hi; try discriminate;
    destruct p; try discriminate.
  - destruct (sm <? maxWorkers)%nat; inversion Hstep; subst; simpl.
    now rewrite length_insert.
  - destruct (looping v); [|discriminate].
    destruct (buildRequest a); inversion Hstep; subst; simpl;
      rewrite ?length_insert; reflexivity.
  - destruct (looping v); [discriminate|].
    destruct (finish v a); inversion Hstep; subst; simpl.
    now rewrite length_insert.
  - destruct cl; inversion Hstep; subst; simpl. now rewrite length_insert.
  - destruct sm; inversion Hstep; subst; simpl. now rewrite length_insert.
  - destruct (w - 1 <? 0); inversion Hstep; subst; simpl.
    now rewrite length_insert.
Qed.

(** X11: the producer sleeps [RequestDelay] before each launch, whether a
    permit is free or not: the time it has slept is [RequestDelay] for each
    goroutine launched, and for each row of the batch at the close. *)
Theorem launches_are_paced (rawDnis rawNombres : string) (s : State) :
  reachable (handleConsultar rawDnis rawNombres) s ->
  paced s = Z.of_nat (length (tasks s)) * RequestDelay /\
  (closed s = true ->
   paced s =
   Z.of_nat (length (initialRows rawDnis rawNombres)) * RequestDelay).
Proof.
  intros Hr.
  assert (Hp : paced s = Z.of_nat (length (tasks s)) * RequestDelay).
  { induction Hr as [|s e s' _ IH Hstep]; [reflexivity|].
    exact (step_paced e s s' Hstep IH). }
  split; [exact Hp|]. intros Hc.
  pose proof (handleConsultar_Inv _ _ _ Hr) as HI.
  destruct (Inv_waited _ s HI) as (_ & Hargs & _);
    [right; now apply (inv_closed _ _ HI)|].
  rewrite Hp, <- Hargs, length_map. reflexivity.
Qed.

Lemma count_disjoint {A : Type} (p q r : A -> bool) (l : list A) :
  (forall x, p x = true -> r x = true /\ q x = false) ->
  (forall x, q x = true -> r x = true) ->
  (count p l + count q l <= count r l)%nat.
Proof.
  intros Hp Hq. induction l as [|x l IH]; simpl; [lia|].
  destruct (p x) eqn:Ep.
  - destruct (Hp x Ep) as [-> ->]. lia.
  - destruct (q x) eqn:Eq; [rewrite (Hq x Eq)|destruct (r x)]; lia.
Qed.

(** X12: a goroutine keeps its permit while it waits for the consumer to
    take its row: the rows complete and not yet received, together with the
    lookups in flight, are never more than [MaxWorkers]. *)
Theorem undelivered_rows_bounded (rawDnis rawNombres : string) (s : State) :
  reachable (handleConsultar rawDnis rawNombres) s ->
  (count atSend (tasks s) + inFlight s <= maxWorkers)%nat.
Proof.
  intros Hr. pose proof (handleConsultar_Inv _ _ _ Hr) as HI.
  pose proof (inv_sem _ _ HI) as Hsem. pose proof (inv_cap _ _ HI) as Hcap.
  pose proof (count_disjoint atSend inLookup holdsPermit (tasks s)) as H.
  unfold inFlight. rewrite Hsem in Hcap.
  etrans; [apply H|exact Hcap].
  - intros t. unfold atSend, inLookup, holdsPermit. now destruct (pc t).
  - intros t. unfold inLookup, holdsPermit. now destruct (pc t).
Qed.

(** X13: the goroutines do not deadlock: with at least one permit, as long
    as the channel is open and no goroutine has panicked, one of them can
    move. *)
Theorem no_deadlock (rawDnis rawNombres : string) (s : State) :
  reachable (handleConsultar rawDnis rawNombres) s ->
  (0 < maxWorkers)%nat ->
  closed s = false ->
  panicked s = false ->
  exists e s', step e s = Some s'.
Proof.
  intros Hr HW Hc Hp.
  exact (Inv_progress _ s HW (handleConsultar_Inv _ _ _ Hr) Hc Hp).
Qed.

(** X14: every run of a batch of [n] rows is over after at most
    [n * (MaxRetries + 8) + 3] moves. *)
Theorem runs_are_bounded (rawDnis rawNombres : string) (evs : list Event)
    (s : State) :
  exec evs (handleConsultar rawDnis rawNombres) = Some s ->
  (length evs <=
   length (initialRows rawDnis rawNombres) * (maxRetries + 8) + 3)%nat.
Proof.
  intros H. apply exec_bounded in H.
  assert (Hw : weight (handleConsultar rawDnis rawNombres) =
               (length (initialRows rawDnis rawNombres) * (maxRetries + 8) + 3)%nat)
    by (unfold weight, handleConsultar, start; simpl; lia).
  lia.
Qed.

(** X15: the counter of the [sync.WaitGroup] is the number of goroutines
    that have not returned, plus one between [wg.Add(1)] and the [go]
    statement; it is never negative, and it is zero once [wg.Wait()] has
    returned. *)
Theorem waitgroup_counts_goroutines (rawDnis rawNombres : string)
    (s : State) :
  reachable (handleConsultar rawDnis rawNombres) s ->
  wg s = Z.of_nat (count running (tasks s)) + pausing (launcher s) /\
  0 <= wg s /\
  (launcher s = AtClose \/ launcher s = Returned -> wg s = 0).
Proof.
  intros Hr. pose proof (handleConsultar_Inv _ _ _ Hr) as HI.
  pose proof (inv_wg _ _ HI) as Hwg. pose proof (inv_waited _ _ HI) as Hw.
  split; [exact Hwg|]. split.
  - rewrite Hwg. destruct (launcher s); simpl; lia.
  - intros [E|E]; now rewrite E in Hw.
Qed.

(** X16: when the request of every row can be built no goroutine panics,
    and a goroutine that has left its loop always has a row to send: after
    a successful pass the response is there to be read. *)
Theorem no_panic_when_requests_build (rawDnis rawNombres : string)
    (s : State) :
  reachable (handleConsultar rawDnis rawNombres) s ->
  (forall i a v, tasks s !! i = Some (mkTask a (InLoop v)) ->
     exists r, finish v a = Some r) /\
  ((forall r, In r (initialRows rawDnis rawNombres) -> buildRequest r = true) ->
   panicked s = false).
Proof.
  intros Hr. pose proof (handleConsultar_Inv _ _ _ Hr) as HI. split.
  - intros i a v Hi. apply finish_defined.
    pose proof (inv_tasks _ _ HI) as Ht. rewrite List.Forall_forall in Ht.
    assert (Hok : taskOk (mkTask a (InLoop v))).
    { apply Ht. apply list_elem_of_In. eapply list_elem_of_lookup_2, Hi. }
    exact (proj1 Hok).
  - intros Hb.
    apply (reachable_no_panic _ s Hb); [apply parseRows_fresh|exact Hr].
Qed.

Lemma lookup_map {A B : Type} (f : A -> B) (l : list A) (i : nat) :
  map f l !! i = option_map f (l !! i).
Proof.
  revert i. induction l as [|x l IH]; intros [|i]; simpl; auto.
Qed.

Lemma initialRows_lookup (rawDnis rawNombres : string) (a : ComparisonRow) :
  In a (initialRows rawDnis rawNombres) ->
  0 <= ID a /\ initialRows rawDnis rawNombres !! Z.to_nat (ID a) = Some a.
Proof.
  intros Hin. apply list_elem_of_In, list_elem_of_lookup in Hin as [i Hi].
  pose proof (initialRows_ids rawDnis rawNombres) as Hids.
  assert (Hid : map ID (initialRows rawDnis rawNombres) !! i = Some (ID a))
    by (now rewrite lookup_map, Hi).
  rewrite Hids, lookup_map in Hid.
  destruct (seq 0 (length (initialRows rawDnis rawNombres)) !! i) as [j|] eqn:Ej;
    [|discriminate].
  apply lookup_seq in Ej as [-> _]. simpl in Hid. inversion Hid as [Hz].
  split; [lia|]. now rewrite Nat2Z.id.
Qed.

(** X17: a row that the consumer receives is the result of the worker on
    the parsed row whose identifier it bears: it has the DNI and the input
    names of the row at the position of its identifier in the batch. *)
Theorem received_row_matches_input (rawDnis rawNombres : string) (s : State)
    (r : ComparisonRow) :
  reachable (handleConsultar rawDnis rawNombres) s ->
  In r (received s) ->
  exists net a,
    initialRows rawDnis rawNombres !! Z.to_nat (ID r) = Some a /\
    worker net a = Some r /\
    ID r = ID a /\ DNI r = DNI a /\ NombreInput r = NombreInput a /\
    PaternoInput r = PaternoInput a /\ MaternoInput r = MaternoInput a.
Proof.
  intros Hr Hin.
  destruct (received_rows_produced _ _ s r Hr Hin) as (net & a & Ha & Hw).
  assert (Hf : finish (runLoop net) a = Some r).
  { unfold worker in Hw.
    destruct (looping enterLoop && negb (buildRequest a)); [discriminate|].
    exact Hw. }
  destruct (finish_inputs _ a r Hf) as (H1 & H2 & H3 & H4 & H5 & _).
  exists net, a. rewrite H1.
  split; [exact (proj2 (initialRows_lookup _ _ a Ha))|].
  repeat split; assumption.
Qed.

(** * Properties of the rendering *)



Lemma getClass_ok (b : bool) : getClass b = "match-ok" <-> b = true.
Proof. destruct b; simpl; split; congruence. Qed.


Lemma uint_no_comma (d : Decimal.uint) :
  occurrences "," (NilEmpty.string_of_uint d) = O.
Proof. induction d; simpl; auto. Qed.

Lemma formatInt_no_comma (n : Z) : occurrences "," (formatInt n) = O.
Proof.
  unfold formatInt, NilZero.string_of_int, NilZero.string_of_uint.
  destruct (Z.to_int n) as [d|d]; destruct d; simpl; auto;
    apply uint_no_comma.
Qed.

Lemma formatInt_inj (a b : Z) : formatInt a = formatInt b -> a = b.
Proof.
  unfold formatInt. intros H.
  assert (Hn : forall z, Z.to_int z <> Decimal.Pos Decimal.Nil /\
                         Z.to_int z <> Decimal.Neg Decimal.Nil).
  { intros [|p|p]; simpl; split; try discriminate;
      intros E; inversion E as [E']; now apply Unsigned.to_uint_nonnil in E'. }
  apply DecimalZ.to_int_inj.
  assert (E : Some (Z.to_int a) = Some (Z.to_int b)).
  { rewrite <- (NilZero.isi (Z.to_int a)) by apply Hn.
    rewrite <- (NilZero.isi (Z.to_int b)) by apply Hn.
    now rewrite H. }
  now inversion E.
Qed.

Lemma append_cancel_l (p s t : string) : p ++ s = p ++ t -> s = t.
Proof. induction p as [|c p IH]; simpl; [auto|]. intros H. inversion H. auto. Qed.

Lemma append_cancel_sep (c : ascii) (s1 s2 x y : string) :
  occurrences c s1 = O -> occurrences c s2 = O ->
  s1 ++ String c x = s2 ++ String c y -> s1 = s2.
Proof.
  revert s2. induction s1 as [|a s1 IH]; intros [|b s2]; simpl; intros H1 H2 H;
    [reflexivity| | |].
  - inversion H; subst. rewrite Ascii.eqb_refl in H2. discriminate.
  - inversion H; subst. rewrite Ascii.eqb_refl in H1. discriminate.
  - inversion H; subst.
    destruct (Ascii.eqb b c); [discriminate|].
    f_equal. eapply IH; eauto.
Qed.

Lemma string_app_nil_r (s : string) : s ++ "" = s.
Proof. induction s as [|c s IH]; simpl; [reflexivity|now rewrite IH]. Qed.

Lemma string_app_assoc (s t u : string) : (s ++ t) ++ u = s ++ t ++ u.
Proof. induction s as [|c s IH]; simpl; [reflexivity|now rewrite IH]. Qed.

Lemma updateRow_ID (r1 r2 : ComparisonRow) :
  updateRow r1 = updateRow r2 -> ID r1 = ID r2.
Proof.
  unfold updateRow. intros H. apply append_cancel_l in H.
  apply formatInt_inj.
  apply (append_cancel_sep "," _ _ _ _ (formatInt_no_comma _)
           (formatInt_no_comma _) H).
Qed.

Lemma NoDup_map_through {A B C : Type} (f : A -> B) (g : A -> C)
    (l : list A) :
  (forall a b, g a = g b -> f a = f b) ->
  NoDup (map f l) -> NoDup (map g l).
Proof.
  intros Hfg. induction l as [|x l IH]; simpl; intros H; [constructor|].
  apply NoDup_cons in H as [Hx Hl].
  apply NoDup_cons. split; [|now apply IH].
  intros Hin. apply Hx.
  apply list_elem_of_In, in_map_iff in Hin as (y & Hy & Hin).
  apply list_elem_of_In, in_map_iff. exists y. split; [|exact Hin].
  now apply Hfg.
Qed.

(** X19: the script written for a row names the row: two rows with the
    same script have the same identifier, so that in the stream of a batch
    no script comes twice; what the consumer has written is one script
    for each row received, in the order of receipt. *)
Theorem scripts_name_their_rows (rawDnis rawNombres : string) (s : State) :
  reachable (handleConsultar rawDnis rawNombres) s ->
  (forall r1 r2, updateRow r1 = updateRow r2 -> ID r1 = ID r2) /\
  NoDup (map updateRow (received s)) /\
  (forall r, written (received s ++ [r]) =
             written (received s) ++ updateRow r).
Proof.
  intros Hr. split; [exact updateRow_ID|]. split.
  - apply (NoDup_map_through ID updateRow _ updateRow_ID).
    pose proof (handleConsultar_Inv _ _ _ Hr) as HI.
    pose proof (inv_recv _ _ HI) as Hrecv.
    pose proof (inv_rows _ _ HI) as Hrows.
    pose proof (initialRows_NoDup rawDnis rawNombres) as Hnd.
    rewrite Hrecv. apply NoDup_map_filter.
    rewrite <- Hrows, map_app in Hnd. apply NoDup_app in Hnd as [Hnd _].
    now rewrite map_map in Hnd.
  - intros r. induction (received s) as [|x l IH]; cbn [app written].
    + apply string_app_nil_r.
    + now rewrite IH, string_app_assoc.
Qed.

(** * Properties of the handlers *)

Lemma getToken_saved (r : Request) (d : Disk) :
  Method r = "POST" -> FormValue r "token" <> "" -> writable d = true ->
  getToken (fst (handleSaveToken r d)) = TrimSpace (FormValue r "token").
Proof.
  intros Hm Ht Hw. unfold handleSaveToken. rewrite Hm. simpl.
  apply String.eqb_neq in Ht. rewrite Ht. simpl.
  unfold WriteFile, getToken. rewrite Hw. reflexivity.
Qed.

(** X20: a token saved by a POST is the token read afterwards, trimmed:
    [getToken] after [handleSaveToken] gives [strings.TrimSpace] of the
    form value, whatever the file held before. *)
Theorem saved_token_is_read_back (r : Request) (d : Disk) :
  Method r = "POST" -> FormValue r "token" <> "" -> writable d = true ->
  getToken (fst (handleSaveToken r d)) = TrimSpace (FormValue r "token") /\
  snd (handleSaveToken r d) = Redirect "/" StatusSeeOther.
Proof.
  intros Hm Ht Hw. split; [now apply getToken_saved|].
  unfold handleSaveToken. rewrite Hm. simpl.
  apply String.eqb_neq in Ht. now rewrite Ht.
Qed.

(** X21: [authMiddleware] lets a request through exactly when the token
    file can be read and is not blank; otherwise the handler behind it is
    not run, the token form is written (or the error 500 when its template
    fails) and the file is left as it is. *)
Theorem auth_gate (next : Handler) (r : Request) (d : Disk) :
  (getToken d <> "" -> authMiddleware next r d = next r d) /\
  (getToken d = "" ->
   fst (authMiddleware next r d) = d /\
   (forall next', authMiddleware next' r d = authMiddleware next r d) /\
   (snd (authMiddleware next r d) = Wrote "formulario_token.html" \/
    snd (authMiddleware next r d) =
    HTTPError "Error interno de template" StatusInternalServerError)).
Proof.
  unfold authMiddleware. split; intros H.
  - apply String.eqb_neq in H. now rewrite H.
  - rewrite H. simpl.
    destruct (ExecuteTemplate "formulario_token.html" []); simpl; auto.
Qed.

(** X22: [handleSaveToken] writes the token file only for a POST with a
    token that is not empty, and then writes that token; a POST is answered
    with the redirect to the index whether the file was written or not, any
    other method with the error 405. *)
Theorem token_written_only_by_post (r : Request) (d : Disk) :
  (fst (handleSaveToken r d) <> d ->
   Method r = "POST" /\ FormValue r "token" <> "" /\ writable d = true /\
   tokenFile (fst (handleSaveToken r d)) = Some (FormValue r "token")) /\
  (Method r = "POST" ->
   snd (handleSaveToken r d) = Redirect "/" StatusSeeOther) /\
  (Method r <> "POST" ->
   handleSaveToken r d =
   (d, HTTPError "Método no permitido" StatusMethodNotAllowed)).
Proof.
  unfold handleSaveToken, WriteFile. split; [|split].
  - destruct (String.eqb (Method r) "POST") eqn:Em; simpl;
      [|intros H; now contradiction H].
    destruct (String.eqb (FormValue r "token") "") eqn:Et; simpl;
      [intros H; now contradiction H|].
    destruct (writable d) eqn:Ew; simpl; [|intros H; now contradiction H].
    intros _. apply String.eqb_eq in Em. apply String.eqb_neq in Et. auto.
  - intros Hm. rewrite Hm. simpl.
    now destruct (String.eqb (FormValue r "token") "").
  - intros Hm. apply String.eqb_neq in Hm. now rewrite Hm.
Qed.

(** X23: the index and the query never write the token file, and the
    index answers a method other than GET with the error 405 only once the
    token is there: without a token every method gets the token form. *)
Theorem reads_leave_token (r : Request) (d : Disk) :
  fst (routeIndex r d) = d /\ fst (routeConsultar r d) = d /\
  (getToken d <> "" -> Method r <> "GET" ->
   routeIndex r d =
   (d, HTTPError "Método no permitido" StatusMethodNotAllowed)).
Proof.
  unfold routeIndex, routeConsultar, authMiddleware, handleIndex,
    serveConsultar.
  split; [|split].
  - destruct (String.eqb (getToken d) "");
      [now destruct (ExecuteTemplate "formulario_token.html" [])|].
    destruct (negb (String.eqb (Method r) "GET")); [reflexivity|].
    now destruct (ExecuteTemplate "formulario_consulta.html" []).
  - destruct (String.eqb (getToken d) "");
      [now destruct (ExecuteTemplate "formulario_token.html" [])|].
    destruct (negb (String.eqb (Method r) "POST")); [reflexivity|].
    destruct (negb (Flusher r)); [reflexivity|].
    now destruct (ExecuteTemplate "tabla_resultados.html" _).
  - intros Ht Hm. apply String.eqb_neq in Ht, Hm. now rewrite Ht, Hm.
Qed.

(** X24: the goroutines of a batch are started exactly for a POST, with a
    token on file, on a writer that can flush, once the table of pending
    rows has been rendered; the rows are those parsed from the form values
    [dnis] and [nombres]. *)
Theorem consultar_gate (r : Request) (d : Disk) (rows : list ComparisonRow) :
  snd (routeConsultar r d) = Stream rows <->
  getToken d <> "" /\ Method r = "POST" /\ Flusher r = true /\
  rows = initialRows (FormValue r "dnis") (FormValue r "nombres") /\
  ExecuteTemplate "tabla_resultados.html" rows = true.
Proof.
  unfold routeConsultar, authMiddleware, serveConsultar. split.
  - destruct (String.eqb (getToken d) "") eqn:Et;
      [destruct (ExecuteTemplate "formulario_token.html" []); discriminate|].
    destruct (String.eqb (Method r) "POST") eqn:Em; simpl; [|discriminate].
    destruct (Flusher r); simpl; [|discriminate].
    destruct (ExecuteTemplate "tabla_resultados.html" _) eqn:Ex; simpl;
      [|discriminate].
    intros H. inversion H; subst.
    apply String.eqb_neq in Et. apply String.eqb_eq in Em. auto.
  - intros (Ht & Hm & Hf & -> & Hx).
    apply String.eqb_neq in Ht. rewrite Ht, Hm, Hf, Hx. reflexivity.
Qed.

(** X25: saving a token unlocks the index exactly when the token is not
    blank: after a POST that saves the token [t], a GET of the index gets
    the query form if [strings.TrimSpace t] is not empty, and the token
    form again if it is, although [t] was written to the file. *)
Theorem saved_token_unlocks (post get : Request) (d : Disk) :
  Method post = "POST" -> FormValue post "token" <> "" ->
  writable d = true -> Method get = "GET" ->
  let d' := fst (handleSaveToken post d) in
  tokenFile d' = Some (FormValue post "token") /\
  (TrimSpace (FormValue post "token") <> "" ->
   snd (routeIndex get d') = Wrote "formulario_consulta.html" \/
   snd (routeIndex get d') = WroteBroken "formulario_consulta.html") /\
  (TrimSpace (FormValue post "token") = "" ->
   snd (routeIndex get d') = Wrote "formulario_token.html" \/
   snd (routeIndex get d') =
   HTTPError "Error interno de template" StatusInternalServerError).
Proof.
  intros Hm Ht Hw Hg d'.
  pose proof (getToken_saved post d Hm Ht Hw) as Hsaved. fold d' in Hsaved.
  split.
  - unfold d', handleSaveToken, WriteFile. rewrite Hm. simpl.
    apply String.eqb_neq in Ht. now rewrite Ht, Hw.
  - unfold routeIndex, authMiddleware, handleIndex. rewrite Hsaved, Hg.
    split; intros H.
    + apply String.eqb_neq in H. rewrite H. simpl.
      destruct (ExecuteTemplate "formulario_consulta.html" []); auto.
    + rewrite H. simpl.
      destruct (ExecuteTemplate "formulario_token.html" []); auto.
Qed.

End Program.

(** * The program with its constants, on the test vectors *)

Lemma rows_of_example :
  map (fun r => (ID r, DNI r, NombreInput r, PaternoInput r, MaternoInput r))
      (initialRows TrimSpaceASCII rawDnisExample rawNombresExample) =
  [(0, "12345678", "Juan", "Perez", "Lopez");
   (1, "87654321", "Maria", "Garcia", "")].
Proof. reflexivity. Qed.

Lemma run_of_example :
  let s := outcomeOf EqualFoldASCII NewRequestPlain MaxRetries MaxWorkers scheduleExample
             (handleConsultar TrimSpaceASCII rawDnisExample rawNombresExample) in
  closed s = true /\
  map (fun r => (ID r, status r, MatchNombre r, MatchPaterno r, MatchMaterno r))
      (received s) =
  [(1, Resolved, true, true, false); (0, Resolved, true, true, true)].
Proof. vm_compute. split; reflexivity. Qed.

(** On ASCII text [strings.EqualFold] is equality of the lower-cased
    strings, character by character and over the whole length. *)
Lemma EqualFoldASCII_lower (s t : string) :
  EqualFoldASCII s t = true <-> lowerString s = lowerString t.
Proof.
  revert t. induction s as [|a s IH]; intros [|b t]; simpl;
    try (split; [reflexivity || discriminate|reflexivity || discriminate]).
  rewrite andb_true_iff, Ascii.eqb_eq, IH. split.
  - intros [-> ->]. reflexivity.
  - intros H. inversion H. auto.
Qed.

Lemma secondTime_retryable (rp : Response) (k : nat) :
  (k < 1)%nat -> retryable (secondTime rp k) = true.
Proof. intros Hk. destruct k; [reflexivity|lia]. Qed.

Lemma resolved_flags_witness :
  exists r',
    worker EqualFoldASCII NewRequestPlain MaxRetries (secondTime maria) rowMaria = Some r' /\
    status r' = Resolved /\
    MatchNombre r' = EqualFoldASCII (NombreInput r') (NombreAPI r') /\
    MatchPaterno r' = EqualFoldASCII (PaternoInput r') (PaternoAPI r') /\
    MatchMaterno r' = EqualFoldASCII (MaternoInput r') (MaternoAPI r').
Proof.
  destruct (resolved_flags_are_EqualFold EqualFoldASCII NewRequestPlain MaxRetries
              (secondTime maria) 1 maria
              (mkAPIResponse "Maria" "Garcia" "Torres" "") rowMaria)
    as (r' & Hw & Hs & _ & _ & _ & _ & _ & _ & _ & _ & H1 & H2 & H3).
  - unfold MaxRetries. lia.
  - apply secondTime_retryable.
  - reflexivity.
  - reflexivity.
  - reflexivity.
  - reflexivity.
  - reflexivity.
  - exists r'. repeat split; assumption.
Defined.

Lemma http_error_witness :
  requests (runLoop MaxRetries (secondTime notFound)) = 2%nat /\
  asleep (runLoop MaxRetries (secondTime notFound)) = 2 * Second /\
  exists r',
    worker EqualFoldASCII NewRequestPlain MaxRetries (secondTime notFound) rowMaria = Some r' /\
    status r' = Failed /\ ErrorMessage r' = "HTTP 404".
Proof.
  destruct (http_error_is_terminal EqualFoldASCII NewRequestPlain MaxRetries
              (secondTime notFound) 1 notFound rowMaria)
    as (_ & _ & Hq & Hz & r' & Hw & Hs & Hm).
  - unfold MaxRetries. lia.
  - apply secondTime_retryable.
  - reflexivity.
  - discriminate.
  - discriminate.
  - reflexivity.
  - split; [exact Hq|]. split; [exact Hz|].
    exists r'. repeat split; assumption.
Defined.

Lemma alwaysRateLimited_429 (k : nat) :
  (k < MaxRetries)%nat ->
  exists rp, alwaysRateLimited k = Answer rp /\ StatusCode rp = 429.
Proof. intros _. exists tooMany. split; reflexivity. Qed.

Lemma rate_limited_witness :
  requests (runLoop MaxRetries alwaysRateLimited) = 3%nat /\
  asleep (runLoop MaxRetries alwaysRateLimited) = 9 * Second /\
  exists r',
    worker EqualFoldASCII NewRequestPlain MaxRetries alwaysRateLimited rowMaria = Some r' /\
    status r' = Failed /\ ErrorMessage r' = "HTTP 429".
Proof.
  apply (rate_limited_exhaustion EqualFoldASCII NewRequestPlain MaxRetries alwaysRateLimited
           rowMaria).
  - unfold MaxRetries. lia.
  - reflexivity.
  - apply alwaysRateLimited_429.
  - reflexivity.
Defined.

(** C2 as stated fails: with [MaxRetries = 3] the three rate-limited
    attempts are followed by sleeps of 2, 3 and 4 seconds, 9 in all, where
    the sum of [2 + k] for [k] from [0] to [MaxRetries - 2] is 5. *)
Lemma rate_limited_backoff_counterexample :
  (forall k, (k < MaxRetries)%nat ->
     exists rp, alwaysRateLimited k = Answer rp /\ StatusCode rp = 429) /\
  asleep (runLoop MaxRetries alwaysRateLimited) = 9 * Second /\
  backoffSum (MaxRetries - 1) * Second = 5 * Second /\
  asleep (runLoop MaxRetries alwaysRateLimited)
  <> backoffSum (MaxRetries - 1) * Second.
Proof.
  split; [apply alwaysRateLimited_429|].
  split; [reflexivity|]. split; [reflexivity|].
  vm_compute. discriminate.
Qed.

Lemma transport_failures_witness :
  requests (runLoop MaxRetries alwaysDown) = 3%nat /\
  asleep (runLoop MaxRetries alwaysDown) = 3 * Second /\
  exists r',
    worker EqualFoldASCII NewRequestPlain MaxRetries alwaysDown rowMaria = Some r' /\
    status r' = Failed /\ ErrorMessage r' = "Error Red".
Proof.
  apply (transport_failures EqualFoldASCII NewRequestPlain MaxRetries alwaysDown rowMaria).
  - intros k _. exists None. reflexivity.
  - reflexivity.
Defined.

Lemma success_payload_witness :
  exists r',
    worker EqualFoldASCII NewRequestPlain MaxRetries (secondTime noNames) rowMaria = Some r' /\
    status r' = Resolved /\
    NombreAPI r' = "" /\ MatchNombre r' = EqualFoldASCII "Maria" "".
Proof.
  destruct (success_payload EqualFoldASCII NewRequestPlain MaxRetries (secondTime noNames) 1
              noNames rowMaria) as [Hok _].
  - unfold MaxRetries. lia.
  - apply secondTime_retryable.
  - reflexivity.
  - reflexivity.
  - reflexivity.
  - reflexivity.
  - destruct Hok as (r' & Hw & Hs & Hn & _); [reflexivity|].
    destruct Hn as [Hn Hm].
    + intros kv [<-|[]]. vm_compute. discriminate.
    + exists r'. repeat split; assumption.
Defined.

(** C10 as stated fails: the body [[]] is a JSON text, and the row of an
    answer of status 200 carrying it is failed with ["JSON Error"], not
    resolved. *)
Lemma json_array_counterexample :
  StatusCode emptyArray = 200 /\
  ResponseBody emptyArray = Text (JArray []) /\
  exists r',
    worker EqualFoldASCII NewRequestPlain MaxRetries (fun _ => Answer emptyArray) rowMaria
    = Some r' /\
    status r' = Failed /\ ErrorMessage r' = "JSON Error" /\
    status r' <> Resolved.
Proof.
  split; [reflexivity|]. split; [reflexivity|].
  eexists. split; [vm_compute; reflexivity|].
  split; [reflexivity|]. split; [reflexivity|]. discriminate.
Qed.

(** * The name scanner on the test vectors *)

(** Where every line fits the buffer, the caller that goes on calling
    [Scan] reads what the loop [for scanner.Scan()] reads. *)
Lemma scanTokensAgain_fits (ls : list string) :
  Forall (fun l => Z.of_nat (String.length l) < MaxScanTokenSize) ls ->
  scanTokensAgain ls = scanTokens ls.
Proof.
  induction 1 as [|l ls Hl _ IH]; simpl; [reflexivity|].
  apply Z.leb_gt in Hl. rewrite Hl. now rewrite IH.
Qed.

Lemma rawLines_lines (l rest : string) :
  ~ In LF (list_ascii_of_string l) ->
  rawLines (lines l rest) = l :: rawLines rest.
Proof.
  unfold lines. induction l as [|c l IH]; cbn [rawLines append]; intros Hl.
  - now rewrite Ascii.eqb_refl.
  - destruct (Ascii.eqb c LF) eqn:E.
    + apply Ascii.eqb_eq in E. exfalso. apply Hl. now left.
    + rewrite IH; [reflexivity|]. intros Hin. apply Hl. now right.
Qed.

(** A first name line that does not fit: the first row has no names, the
    second the [MaxScanTokenSize] bytes that filled the buffer, and the
    rows after it have none, whatever name lines follow. *)
Lemma name_line_too_long (l rest : string) :
  ~ In LF (list_ascii_of_string l) ->
  MaxScanTokenSize <= Z.of_nat (String.length l) ->
  NewScannerNames (lines l rest) =
  [EmptyString; dropCR (substring 0 (Z.to_nat MaxScanTokenSize) l)].
Proof.
  intros Hl Hn. unfold NewScannerNames. rewrite rawLines_lines by exact Hl.
  simpl. apply Z.leb_le in Hn. now rewrite Hn.
Qed.




Lemma delivered_rows_shape_witness :
  let s := outcomeOf EqualFoldASCII NewRequestPlain MaxRetries MaxWorkers scheduleFailing
             (handleConsultar TrimSpaceASCII "12345678" "Juan") in
  let r := mkRow 0 "12345678" "Juan" "" "" "" "" "" false false false
                 true "HTTP 404" false in
  received s = [r] /\
  (ErrorMessage r <> "" <-> status r = Failed) /\
  (status r <> Resolved -> unsetAPI r) /\
  status r <> Pending.
Proof.
  intros s r.
  assert (Hr : received s = [r]) by (vm_compute; reflexivity).
  split; [exact Hr|].
  apply (delivered_rows_shape TrimSpaceASCII EqualFoldASCII NewRequestPlain MaxRetries
           MaxWorkers "12345678" "Juan" s r (outcomeOf_reachable _ _ _ _ _ _)).
  rewrite Hr. left. reflexivity.
Defined.


Lemma in_flight_bounded_witness :
  let s := outcomeOf EqualFoldASCII NewRequestPlain MaxRetries MaxWorkers scheduleMidway
             (handleConsultar TrimSpaceASCII rawDnisExample rawNombresExample) in
  inFlight s = 2%nat /\ (inFlight s <= MaxWorkers)%nat.
Proof.
  intros s. split; [vm_compute; reflexivity|].
  exact (proj1 (proj2 (proj2 (proj2 (in_flight_bounded TrimSpaceASCII
           EqualFoldASCII NewRequestPlain MaxRetries MaxWorkers rawDnisExample
           rawNombresExample s (outcomeOf_reachable _ _ _ _ _ _)))))).
Defined.

(** The request of an identifier with a control character cannot be built:
    the goroutine panics at its first attempt and nothing moves after. *)
Lemma control_character_panics :
  let s := outcomeOf EqualFoldASCII NewRequestPlain MaxRetries MaxWorkers
             scheduleTab (handleConsultar TrimSpaceASCII rawDnisTab "") in
  map DNI (initialRows TrimSpaceASCII rawDnisTab "") = [rawDnisTab] /\
  panicked s = true /\ closed s = false /\ received s = [] /\
  forall e, step EqualFoldASCII NewRequestPlain MaxRetries MaxWorkers e s = None.
Proof.
  intros s. split; [vm_compute; reflexivity|].
  assert (Hp : panicked s = true) by (vm_compute; reflexivity).
  split; [exact Hp|]. split; [vm_compute; reflexivity|].
  split; [vm_compute; reflexivity|].
  intros e. unfold step. now rewrite Hp.
Qed.

(** The batch of one identifier line, [12], a tab, [34]: the parser makes
    the row of identifier [0], whose request cannot be built; the schedule
    that launches its goroutine ends in the panic, with nothing received
    and the channel open. *)
Lemma unbuildable_row_is_never_delivered_witness :
  let s := outcomeOf EqualFoldASCII NewRequestPlain MaxRetries MaxWorkers
             scheduleTab (handleConsultar TrimSpaceASCII rawDnisTab "") in
  initialRows TrimSpaceASCII rawDnisTab "" = [rowTab] /\
  buildRequest NewRequestPlain rowTab = false /\
  panicked s = true /\
  In (ID rowTab) (map ID (initialRows TrimSpaceASCII rawDnisTab "")) /\
  ~ In (ID rowTab) (map ID (received s)) /\
  closed s = false.
Proof.
  intros s.
  assert (Hrows : initialRows TrimSpaceASCII rawDnisTab "" = [rowTab])
    by (vm_compute; reflexivity).
  assert (Hb : buildRequest NewRequestPlain rowTab = false)
    by (vm_compute; reflexivity).
  split; [exact Hrows|]. split; [exact Hb|].
  split; [vm_compute; reflexivity|].
  destruct (unbuildable_row_is_never_delivered TrimSpaceASCII EqualFoldASCII
              NewRequestPlain MaxRetries MaxWorkers rawDnisTab "" rowTab s
              ltac:(unfold MaxRetries; lia)
              ltac:(rewrite Hrows; left; reflexivity) Hb
              (outcomeOf_reachable _ _ _ _ _ _)) as (H1 & H2 & H3 & _).
  split; [exact H1|]. split; [exact H2|exact H3].
Defined.

(** * Further properties, on the test vectors *)

Lemma parsed_rows_are_pending_witness :
  DNI rowMaria <> "" /\ status rowMaria = Pending.
Proof.
  destruct (parsed_rows_are_pending TrimSpaceASCII rawDnisExample
              rawNombresExample rowMaria) as (H1 & _ & H2 & _).
  - right. left. reflexivity.
  - split; assumption.
Defined.

Lemma name_fields_by_tabs_witness :
  newRow TrimSpaceASCII 0 "1" (tabbed "A" "B" "C" ++ String TAB "D") =
  newRow TrimSpaceASCII 0 "1" (tabbed "A" "B" "C").
Proof.
  apply (proj2 (proj2 (name_fields_by_tabs TrimSpaceASCII 0 "1"
                         (tabbed "A" "B" "C")))).
  vm_compute. lia.
Defined.

Lemma backoff_total_witness :
  asleep (runLoop MaxRetries mixedRegistry) = 5 * Second /\
  asleep (runLoop MaxRetries mixedRegistry) =
  backoffs mixedRegistry (attempt (runLoop MaxRetries mixedRegistry)) /\
  asleep (runLoop MaxRetries mixedRegistry) <= backoffSum MaxRetries * Second.
Proof.
  split; [reflexivity|].
  destruct (backoff_total MaxRetries mixedRegistry) as (H1 & _ & H2).
  - reflexivity.
  - split; assumption.
Defined.

Lemma mixedRegistry_retryable (k : nat) :
  (k < MaxRetries)%nat -> retryable (mixedRegistry k) = true.
Proof. intros _. destruct k as [|[|k]]; reflexivity. Qed.

Lemma exhaustion_tag_witness :
  worker EqualFoldASCII NewRequestPlain MaxRetries mixedRegistry rowMaria =
  Some (withError "Error Red" (notPending rowMaria)).
Proof.
  exact (exhaustion_tag EqualFoldASCII NewRequestPlain MaxRetries
           mixedRegistry 2 rowMaria eq_refl mixedRegistry_retryable eq_refl).
Defined.

Lemma worker_keeps_inputs_witness :
  exists r',
    worker EqualFoldASCII NewRequestPlain MaxRetries (secondTime maria)
           rowMaria = Some r' /\
    status r' = Resolved /\ ID r' = 1 /\ DNI r' = "87654321".
Proof.
  eexists. split; [vm_compute; reflexivity|]. split; [reflexivity|].
  destruct (worker_keeps_inputs EqualFoldASCII NewRequestPlain MaxRetries
              (secondTime maria) rowMaria _ eq_refl) as (H1 & H2 & _).
  split; [exact H1|exact H2].
Defined.

Lemma failure_tags_witness :
  exists r',
    worker EqualFoldASCII NewRequestPlain MaxRetries (secondTime notFound)
           rowMaria = Some r' /\
    (ErrorMessage r' = "Error Red" \/ ErrorMessage r' = "JSON Error" \/
     exists code, code <> 200 /\ ErrorMessage r' = "HTTP " ++ formatInt code).
Proof.
  eexists. split; [vm_compute; reflexivity|].
  apply (failure_tags EqualFoldASCII NewRequestPlain MaxRetries
           (secondTime notFound) rowMaria); reflexivity.
Defined.

Lemma worker_panics_witness :
  worker EqualFoldASCII NewRequestPlain MaxRetries alwaysDown rowTab = None.
Proof.
  apply (worker_panics_only_without_request EqualFoldASCII NewRequestPlain
           MaxRetries alwaysDown rowTab).
  split; [unfold MaxRetries; lia|reflexivity].
Defined.

Lemma worker_forgets_retries_witness :
  worker EqualFoldASCII NewRequestPlain MaxRetries (secondTime maria) rowMaria =
  worker EqualFoldASCII NewRequestPlain MaxRetries (fun _ => Answer maria)
         rowMaria.
Proof.
  apply (worker_forgets_retries EqualFoldASCII NewRequestPlain MaxRetries
           (secondTime maria) (fun _ => Answer maria) 1 0 maria rowMaria).
  - unfold MaxRetries. lia.
  - unfold MaxRetries. lia.
  - apply secondTime_retryable.
  - intros k Hk. lia.
  - reflexivity.
  - reflexivity.
  - discriminate.
Defined.

Lemma launched_in_input_order_witness :
  let s := outcomeOf EqualFoldASCII NewRequestPlain MaxRetries MaxWorkers
             [EAdd; ESpawn; EAdd]
             (handleConsultar TrimSpaceASCII rawDnisExample rawNombresExample) in
  length (tasks s) = 1%nat /\
  map arg (tasks s) =
  take (length (tasks s))
       (initialRows TrimSpaceASCII rawDnisExample rawNombresExample) /\
  unlaunched s =
  drop (length (tasks s))
       (initialRows TrimSpaceASCII rawDnisExample rawNombresExample).
Proof.
  intros s. split; [vm_compute; reflexivity|].
  exact (launched_in_input_order TrimSpaceASCII EqualFoldASCII NewRequestPlain
           MaxRetries MaxWorkers rawDnisExample rawNombresExample s
           (outcomeOf_reachable _ _ _ _ _ _)).
Defined.

Lemma launches_are_paced_witness :
  let s := outcomeOf EqualFoldASCII NewRequestPlain MaxRetries MaxWorkers
             scheduleExample
             (handleConsultar TrimSpaceASCII rawDnisExample rawNombresExample) in
  closed s = true /\ paced s = 400 * Millisecond /\
  paced s =
  Z.of_nat (length (initialRows TrimSpaceASCII rawDnisExample
                      rawNombresExample)) * RequestDelay.
Proof.
  intros s.
  assert (Hc : closed s = true) by (vm_compute; reflexivity).
  split; [exact Hc|]. split; [vm_compute; reflexivity|].
  exact (proj2 (launches_are_paced TrimSpaceASCII EqualFoldASCII
           NewRequestPlain MaxRetries MaxWorkers rawDnisExample
           rawNombresExample s (outcomeOf_reachable _ _ _ _ _ _)) Hc).
Defined.

Lemma undelivered_rows_bounded_witness :
  let s := outcomeOf EqualFoldASCII NewRequestPlain MaxRetries MaxWorkers
             (scheduleMidway ++ [EAttempt 1 (Answer maria); EFinish 1])
             (handleConsultar TrimSpaceASCII rawDnisExample rawNombresExample) in
  count atSend (tasks s) = 1%nat /\ inFlight s = 1%nat /\
  (count atSend (tasks s) + inFlight s <= MaxWorkers)%nat.
Proof.
  intros s. split; [vm_compute; reflexivity|]. split; [vm_compute; reflexivity|].
  exact (undelivered_rows_bounded TrimSpaceASCII EqualFoldASCII NewRequestPlain
           MaxRetries MaxWorkers rawDnisExample rawNombresExample s
           (outcomeOf_reachable _ _ _ _ _ _)).
Defined.

Lemma no_deadlock_witness :
  let s := outcomeOf EqualFoldASCII NewRequestPlain MaxRetries MaxWorkers
             scheduleMidway
             (handleConsultar TrimSpaceASCII rawDnisExample rawNombresExample) in
  exists e s',
    step EqualFoldASCII NewRequestPlain MaxRetries MaxWorkers e s = Some s'.
Proof.
  intros s.
  apply (no_deadlock TrimSpaceASCII EqualFoldASCII NewRequestPlain
           MaxRetries MaxWorkers rawDnisExample rawNombresExample s
           (outcomeOf_reachable _ _ _ _ _ _)).
  - unfold MaxWorkers. lia.
  - vm_compute. reflexivity.
  - vm_compute. reflexivity.
Defined.

Lemma runs_are_bounded_witness :
  (length scheduleExample <=
   length (initialRows TrimSpaceASCII rawDnisExample rawNombresExample)
   * (MaxRetries + 8) + 3)%nat.
Proof.
  apply (runs_are_bounded TrimSpaceASCII EqualFoldASCII NewRequestPlain
           MaxRetries MaxWorkers rawDnisExample rawNombresExample
           scheduleExample
           (outcomeOf EqualFoldASCII NewRequestPlain MaxRetries MaxWorkers
              scheduleExample
              (handleConsultar TrimSpaceASCII rawDnisExample
                 rawNombresExample))).
  vm_compute. reflexivity.
Defined.

Lemma waitgroup_counts_goroutines_witness :
  let s := outcomeOf EqualFoldASCII NewRequestPlain MaxRetries MaxWorkers
             [EAdd; ESpawn; EAdd]
             (handleConsultar TrimSpaceASCII rawDnisExample rawNombresExample) in
  wg s = 2 /\
  wg s = Z.of_nat (count running (tasks s)) + pausing (launcher s).
Proof.
  intros s. split; [vm_compute; reflexivity|].
  exact (proj1 (waitgroup_counts_goroutines TrimSpaceASCII EqualFoldASCII
           NewRequestPlain MaxRetries MaxWorkers rawDnisExample
           rawNombresExample s (outcomeOf_reachable _ _ _ _ _ _))).
Defined.

Lemma no_panic_witness :
  let s := outcomeOf EqualFoldASCII NewRequestPlain MaxRetries MaxWorkers
             scheduleExample
             (handleConsultar TrimSpaceASCII rawDnisExample rawNombresExample) in
  panicked s = false.
Proof.
  intros s.
  apply (no_panic_when_requests_build TrimSpaceASCII EqualFoldASCII
           NewRequestPlain MaxRetries MaxWorkers rawDnisExample
           rawNombresExample s (outcomeOf_reachable _ _ _ _ _ _)).
  intros r Hin. vm_compute in Hin.
  destruct Hin as [<-|[<-|[]]]; reflexivity.
Defined.

Lemma received_row_matches_input_witness :
  let s := outcomeOf EqualFoldASCII NewRequestPlain MaxRetries MaxWorkers
             scheduleFailing
             (handleConsultar TrimSpaceASCII "12345678" "Juan") in
  received s = [rowNotFound] /\
  exists net a,
    initialRows TrimSpaceASCII "12345678" "Juan" !! Z.to_nat (ID rowNotFound)
    = Some a /\
    worker EqualFoldASCII NewRequestPlain MaxRetries net a = Some rowNotFound /\
    DNI rowNotFound = DNI a.
Proof.
  intros s.
  assert (Hr : received s = [rowNotFound]) by (vm_compute; reflexivity).
  split; [exact Hr|].
  destruct (received_row_matches_input TrimSpaceASCII EqualFoldASCII
              NewRequestPlain MaxRetries MaxWorkers "12345678" "Juan" s
              rowNotFound (outcomeOf_reachable _ _ _ _ _ _))
    as (net & a & H1 & H2 & _ & H3 & _).
  - rewrite Hr. left. reflexivity.
  - exists net, a. auto.
Defined.


Lemma scripts_name_their_rows_witness :
  let s := outcomeOf EqualFoldASCII NewRequestPlain MaxRetries MaxWorkers
             scheduleExample
             (handleConsultar TrimSpaceASCII rawDnisExample rawNombresExample) in
  length (received s) = 2%nat /\ NoDup (map updateRow (received s)).
Proof.
  intros s. split; [vm_compute; reflexivity|].
  exact (proj1 (proj2 (scripts_name_their_rows TrimSpaceASCII EqualFoldASCII
           NewRequestPlain MaxRetries MaxWorkers rawDnisExample
           rawNombresExample s (outcomeOf_reachable _ _ _ _ _ _)))).
Defined.

Lemma saved_token_is_read_back_witness :
  getToken TrimSpaceASCII (fst (handleSaveToken (postToken " abc ") emptyDisk))
  = "abc".
Proof.
  apply (saved_token_is_read_back TrimSpaceASCII (postToken " abc ") emptyDisk).
  - reflexivity.
  - discriminate.
  - reflexivity.
Defined.

Lemma auth_gate_witness :
  authMiddleware TrimSpaceASCII templatesRender
    (handleIndex templatesRender) getIndex (diskWith "abc") =
  handleIndex templatesRender getIndex (diskWith "abc").
Proof.
  apply (auth_gate TrimSpaceASCII templatesRender). discriminate.
Defined.

Lemma token_written_only_by_post_witness :
  handleSaveToken getIndex (diskWith "abc") =
  (diskWith "abc", HTTPError "Método no permitido" StatusMethodNotAllowed).
Proof.
  apply (token_written_only_by_post getIndex (diskWith "abc")). discriminate.
Defined.

Lemma reads_leave_token_witness :
  routeIndex TrimSpaceASCII templatesRender (postToken "x") (diskWith "abc") =
  (diskWith "abc", HTTPError "Método no permitido" StatusMethodNotAllowed).
Proof.
  apply (reads_leave_token TrimSpaceASCII templatesRender); discriminate.
Defined.

Lemma consultar_gate_witness :
  snd (routeConsultar TrimSpaceASCII templatesRender postBatch (diskWith "abc"))
  = Stream (initialRows TrimSpaceASCII rawDnisExample rawNombresExample).
Proof.
  apply (consultar_gate TrimSpaceASCII templatesRender).
  split; [discriminate|]. repeat split.
Defined.

Lemma saved_token_unlocks_witness :
  snd (routeIndex TrimSpaceASCII templatesRender getIndex
         (fst (handleSaveToken (postToken "   ") emptyDisk))) =
  Wrote "formulario_token.html" \/
  snd (routeIndex TrimSpaceASCII templatesRender getIndex
         (fst (handleSaveToken (postToken "   ") emptyDisk))) =
  HTTPError "Error interno de template" StatusInternalServerError.
Proof.
  apply (saved_token_unlocks TrimSpaceASCII templatesRender (postToken "   ")
           getIndex emptyDisk); try reflexivity.
  discriminate.
Defined.
